(** * Interview assistant and code challenge: response validation and flow

    A shallow embedding of the two React components of the repository,

      - [InterviewAssistant.tsx]: resume upload, skill extraction, question
        generation, answer scoring, result analysis;
      - [CodeEditor.tsx] (the variant with test cases): question and test
        case generation, running the test cases;

    together with the properties of the parsing and defaulting of the replies
    of the hosted language model and of the quiz flow.

    Conventions of the embedding.

      - A JavaScript string is a list of characters ([jsstring]); each
        character stands for one code unit below 256.
      - A value produced by [JSON.parse] is a [value]; numbers are IEEE
        doubles ([spec_float]).
      - An [async] handler is a resumption ([Proc]): it finishes, throws, or
        waits for the reply of the language model with the component state
        that is committed at that point.
      - The handlers read the state of the render in which they were
        started and no other handler runs while one waits. *)

From Stdlib Require Import Strings.Ascii Strings.String.
From Stdlib Require Import Floats.SpecFloat.
From Stdlib Require Import Bool Arith ZArith NArith Lia List.
From Stdlib Require DecimalNat.
Import ListNotations.

Set Implicit Arguments.

(** ** JavaScript strings *)

Module JsString.

Definition jsstring : Type := list ascii.

(** A literal of the source. *)
Definition js (s : string) : jsstring := list_ascii_of_string s.

Definition code (c : ascii) : N := N_of_ascii c.

(** [\s] of a regular expression and the characters removed by [trim]:
    TAB, LF, VT, FF, CR, SP and NBSP (the members below 256). *)
Definition is_space (c : ascii) : bool :=
  let n := code c in
  (((9 <=? n) && (n <=? 13)) || (n =? 32) || (n =? 160))%N.

(** [\d] of a regular expression. *)
Definition is_digit (c : ascii) : bool :=
  let n := code c in ((48 <=? n) && (n <=? 57))%N.

(** [String.prototype.toLowerCase], one character: A-Z and the upper case
    letters of Latin-1 (all of 192-222 but the multiplication sign). *)
Definition lower_char (c : ascii) : ascii :=
  let n := code c in
  if (((65 <=? n) && (n <=? 90))
      || ((192 <=? n) && (n <=? 222) && negb (n =? 215)))%N
  then ascii_of_N (n + 32) else c.

Definition toLowerCase (s : jsstring) : jsstring := map lower_char s.

(** Canonicalisation of a character under the [i] flag (without [u]): the
    upper case of the character; a character from 128 on never becomes an
    ASCII one, so for the ASCII patterns of this program only a-z matter. *)
Definition re_canon (c : ascii) : ascii :=
  let n := code c in
  if ((97 <=? n) && (n <=? 122))%N then ascii_of_N (n - 32) else c.

Definition ci_eqb (p c : ascii) : bool := Ascii.eqb (re_canon p) (re_canon c).

Fixpoint takeWhile (p : ascii -> bool) (s : jsstring) : jsstring :=
  match s with
  | c :: s' => if p c then c :: takeWhile p s' else []
  | [] => []
  end.

Fixpoint dropWhile (p : ascii -> bool) (s : jsstring) : jsstring :=
  match s with
  | c :: s' => if p c then dropWhile p s' else s
  | [] => []
  end.

Definition trimStart (s : jsstring) : jsstring := dropWhile is_space s.
Definition trimEnd (s : jsstring) : jsstring := rev (dropWhile is_space (rev s)).

(** [String.prototype.trim]. *)
Definition trim (s : jsstring) : jsstring := trimEnd (trimStart s).

(** [s.split(sep)] for a separator of one character: never an empty array,
    the empty string gives one empty segment. *)
Fixpoint split (sep : ascii) (s : jsstring) : list jsstring :=
  match s with
  | [] => [[]]
  | c :: s' =>
      if Ascii.eqb c sep then [] :: split sep s'
      else match split sep s' with
           | seg :: segs => (c :: seg) :: segs
           | [] => [[c]]
           end
  end.

(** [s.startsWith(p)], giving the rest of [s] after [p]. *)
Fixpoint strip_prefix (eqb : ascii -> ascii -> bool) (p s : jsstring)
  : option jsstring :=
  match p, s with
  | [], _ => Some s
  | a :: p', c :: s' => if eqb a c then strip_prefix eqb p' s' else None
  | _ :: _, [] => None
  end.

Definition startsWith (p s : jsstring) : bool :=
  match strip_prefix Ascii.eqb p s with Some _ => true | None => false end.

(** [s.includes(p)]. *)
Fixpoint includes (s p : jsstring) : bool :=
  startsWith p s ||
  match s with
  | [] => false
  | _ :: s' => includes s' p
  end.

(** [parseInt] on a run of decimal digits.  The value is kept exact; the
    JavaScript number agrees with it below 2^53 and is the nearest double
    above. *)
Definition digit_value (c : ascii) : Z := Z.of_N (code c) - 48.

Definition parseInt (ds : jsstring) : Z :=
  fold_left (fun acc d => 10 * acc + digit_value d)%Z ds 0%Z.

(** [s.substring(0, n)]. *)
Definition substring0 (n : nat) (s : jsstring) : jsstring := firstn n s.

Definition newline : ascii := "010"%char.
Definition comma : ascii := ","%char.

End JsString.
Import JsString.

(** ** Values of [JSON.parse] *)

Module Json.

(** A JavaScript value as [JSON.parse] builds it, and [undefined], which a
    missing property reads as.  An object lists its own properties. *)
#[warnings="-register-all"]
Inductive value : Type :=
| VUndefined
| VNull
| VBool (b : bool)
| VNumber (x : spec_float)
| VString (s : jsstring)
| VArray (items : list value)
| VObject (fields : list (jsstring * value)).

Fixpoint str_eqb (a b : jsstring) : bool :=
  match a, b with
  | [], [] => true
  | x :: a', y :: b' => Ascii.eqb x y && str_eqb a' b'
  | _, _ => false
  end.

Fixpoint lookup (key : jsstring) (fields : list (jsstring * value)) : value :=
  match fields with
  | [] => VUndefined
  | (k, v) :: rest => if str_eqb k key then v else lookup key rest
  end.

(** [v.key] for the property names this program reads ([question],
    [testCases], [testResults], [overallPerformance], [strengths],
    [weaknesses], [improvementSuggestions]; none is inherited from a
    prototype).  [None] is the [TypeError] of reading a property of [null]
    or [undefined]. *)
Definition get (v : value) (key : jsstring) : option value :=
  match v with
  | VUndefined | VNull => None
  | VObject fields => Some (lookup key fields)
  | _ => Some VUndefined
  end.

(** The values that count as true in a condition and under [||]. *)
Definition truthy (v : value) : bool :=
  match v with
  | VUndefined | VNull => false
  | VBool b => b
  | VNumber (S754_zero _) | VNumber S754_nan => false
  | VNumber _ => true
  | VString s => negb (str_eqb s [])
  | VArray _ | VObject _ => true
  end.

(** [a || b]. *)
Definition or_else (a b : value) : value := if truthy a then a else b.

(** [x[i]] on an array. *)
Definition index (items : list value) (i : nat) : value := nth i items VUndefined.

End Json.
Import Json.

(** ** Records of the interview *)

Module Entry.

(** [interface ChatHistoryEntry] *)
Record ChatHistoryEntry : Type := {
  question : jsstring;
  answer : jsstring;
  feedback : jsstring;
  score : Z
}.

End Entry.

(** ** The language model as an oracle *)

Module Oracle.

(** The content of a completion, [choices[0].message.content], with the
    result [JSON.parse] has on this text ([None]: it throws a
    [SyntaxError]).  [JSON.parse] belongs to the language, not to the
    repository, so its result travels with the text. *)
Record Completion : Type := {
  text : jsstring;
  json : option value
}.

(** A string literal of a JSON text: the characters between two quotation
    marks (for a string that needs no escape). *)
Definition quoted (s : jsstring) : jsstring :=
  "034"%char :: s ++ ["034"%char].

(** The outcome of [groq.chat.completions.create]: the promise rejects, or
    resolves with a content that may be missing ([null] or [undefined]). *)
Inductive Reply : Type :=
| Rejected
| Replied (content : option Completion).

(** [content || fallback] on the text of a reply: a missing content and the
    empty string are both false. *)
Definition present (content : option Completion) : option Completion :=
  match content with
  | Some c => if str_eqb (text c) [] then None else Some c
  | None => None
  end.

(** One constructor per prompt of the source, with the values that the
    prompt interpolates. *)
Inductive Request : Type :=
| VerifyResume (excerpt : jsstring)
| ExtractSkills (resume : jsstring)
| GenerateQuestions (skills : list jsstring)
| ScoreAnswer (question answer : jsstring)
| AnalyzeResults (shown : list Entry.ChatHistoryEntry)
| GenerateCodingQuestion (difficulty language topic : jsstring)
| RunTests (question : value) (language code : jsstring) (testCases : value).

(** An asynchronous handler over a component state [S]: it returns, throws,
    or awaits the oracle.  The state of each node is the one committed when
    the handler gets there. *)
Inductive Proc (S A : Type) : Type :=
| Return (st : S) (a : A)
| Throw (st : S)
| Await (st : S) (req : Request) (k : Reply -> Proc S A).

Arguments Throw {S A} st.

Section Combinators.
Context {S A B : Type}.

(** [await p; f] *)
Fixpoint bind (p : Proc S A) (f : S -> A -> Proc S B) : Proc S B :=
  match p with
  | Return st a => f st a
  | Throw st => Throw st
  | Await st req k => Await st req (fun r => bind (k r) f)
  end.

(** [try { p } catch { h }] *)
Fixpoint catch (p : Proc S A) (h : S -> Proc S A) : Proc S A :=
  match p with
  | Return st a => Return st a
  | Throw st => h st
  | Await st req k => Await st req (fun r => catch (k r) h)
  end.

(** [try { p } finally { f }], for an [f] that only sets state. *)
Fixpoint finally (p : Proc S A) (f : S -> S) : Proc S A :=
  match p with
  | Return st a => Return (f st) a
  | Throw st => Throw (f st)
  | Await st req k => Await st req (fun r => finally (k r) f)
  end.

(** The state a handler shows: at its end, or while it waits. *)
Definition state_of (p : Proc S A) : S :=
  match p with
  | Return st _ | Throw st | Await st _ _ => st
  end.

(** Feed the replies of the oracle, in order, to a handler. *)
Fixpoint run (p : Proc S A) (replies : list Reply) {struct replies}
  : Proc S A :=
  match replies with
  | [] => p
  | r :: rest =>
      match p with
      | Await _ _ k => run (k r) rest
      | _ => p
      end
  end.

(** The requests a handler makes under these replies. *)
Fixpoint requests (p : Proc S A) (replies : list Reply) : list Request :=
  match p with
  | Await _ req k =>
      req :: match replies with
             | [] => []
             | r :: rest => requests (k r) rest
             end
  | _ => []
  end.

Definition finished (p : Proc S A) : bool :=
  match p with Return _ _ => true | _ => false end.

End Combinators.

(** [P] holds of the state at every point a handler can get to. *)
Inductive Always {S A : Type} (P : S -> Prop) : Proc S A -> Prop :=
| Always_Return st a : P st -> Always P (Return st a)
| Always_Throw st : P st -> Always P (Throw st)
| Always_Await st req k :
    P st -> (forall r, Always P (k r)) -> Always P (Await st req k).

End Oracle.
Import Oracle.

(** ** [InterviewAssistant.tsx] *)

Module InterviewAssistant.

(** [interface ResultAnalysis].  The three arrays hold what the reply
    held: the entries are not checked to be strings. *)
Record ResultAnalysis : Type := {
  overallPerformance : jsstring;
  strengths : list value;
  weaknesses : list value;
  improvementSuggestions : list value
}.

(** The [useState] cells of the component. *)
Record State : Type := {
  resumeText : jsstring;
  skills : list jsstring;
  currentQuestionIndex : nat;
  currentQuestion : jsstring;
  answer : jsstring;
  history : list Entry.ChatHistoryEntry;
  interviewing : bool;
  isResumeValid : option bool;
  isProcessing : bool;
  totalScore : Z;
  questions : list jsstring;
  interviewCompleted : bool;
  resultAnalysis : option ResultAnalysis;
  selectedMcqOption : option nat
}.

Definition initial : State :=
  {| resumeText := []; skills := []; currentQuestionIndex := 0;
     currentQuestion := []; answer := []; history := [];
     interviewing := false; isResumeValid := None; isProcessing := false;
     totalScore := 0; questions := []; interviewCompleted := false;
     resultAnalysis := None; selectedMcqOption := None |}.

Definition setResumeText v (s : State) : State :=
  Build_State v (skills s) (currentQuestionIndex s) (currentQuestion s)
    (answer s) (history s) (interviewing s) (isResumeValid s)
    (isProcessing s) (totalScore s) (questions s) (interviewCompleted s)
    (resultAnalysis s) (selectedMcqOption s).
Definition setSkills v (s : State) : State :=
  Build_State (resumeText s) v (currentQuestionIndex s) (currentQuestion s)
    (answer s) (history s) (interviewing s) (isResumeValid s)
    (isProcessing s) (totalScore s) (questions s) (interviewCompleted s)
    (resultAnalysis s) (selectedMcqOption s).
Definition setCurrentQuestionIndex v (s : State) : State :=
  Build_State (resumeText s) (skills s) v (currentQuestion s)
    (answer s) (history s) (interviewing s) (isResumeValid s)
    (isProcessing s) (totalScore s) (questions s) (interviewCompleted s)
    (resultAnalysis s) (selectedMcqOption s).
Definition setCurrentQuestion v (s : State) : State :=
  Build_State (resumeText s) (skills s) (currentQuestionIndex s) v
    (answer s) (history s) (interviewing s) (isResumeValid s)
    (isProcessing s) (totalScore s) (questions s) (interviewCompleted s)
    (resultAnalysis s) (selectedMcqOption s).
Definition setAnswer v (s : State) : State :=
  Build_State (resumeText s) (skills s) (currentQuestionIndex s)
    (currentQuestion s) v (history s) (interviewing s) (isResumeValid s)
    (isProcessing s) (totalScore s) (questions s) (interviewCompleted s)
    (resultAnalysis s) (selectedMcqOption s).
Definition setHistory v (s : State) : State :=
  Build_State (resumeText s) (skills s) (currentQuestionIndex s)
    (currentQuestion s) (answer s) v (interviewing s) (isResumeValid s)
    (isProcessing s) (totalScore s) (questions s) (interviewCompleted s)
    (resultAnalysis s) (selectedMcqOption s).
Definition setInterviewing v (s : State) : State :=
  Build_State (resumeText s) (skills s) (currentQuestionIndex s)
    (currentQuestion s) (answer s) (history s) v (isResumeValid s)
    (isProcessing s) (totalScore s) (questions s) (interviewCompleted s)
    (resultAnalysis s) (selectedMcqOption s).
Definition setIsResumeValid v (s : State) : State :=
  Build_State (resumeText s) (skills s) (currentQuestionIndex s)
    (currentQuestion s) (answer s) (history s) (interviewing s) v
    (isProcessing s) (totalScore s) (questions s) (interviewCompleted s)
    (resultAnalysis s) (selectedMcqOption s).
Definition setIsProcessing v (s : State) : State :=
  Build_State (resumeText s) (skills s) (currentQuestionIndex s)
    (currentQuestion s) (answer s) (history s) (interviewing s)
    (isResumeValid s) v (totalScore s) (questions s) (interviewCompleted s)
    (resultAnalysis s) (selectedMcqOption s).
Definition setTotalScore v (s : State) : State :=
  Build_State (resumeText s) (skills s) (currentQuestionIndex s)
    (currentQuestion s) (answer s) (history s) (interviewing s)
    (isResumeValid s) (isProcessing s) v (questions s) (interviewCompleted s)
    (resultAnalysis s) (selectedMcqOption s).
Definition setQuestions v (s : State) : State :=
  Build_State (resumeText s) (skills s) (currentQuestionIndex s)
    (currentQuestion s) (answer s) (history s) (interviewing s)
    (isResumeValid s) (isProcessing s) (totalScore s) v (interviewCompleted s)
    (resultAnalysis s) (selectedMcqOption s).
Definition setInterviewCompleted v (s : State) : State :=
  Build_State (resumeText s) (skills s) (currentQuestionIndex s)
    (currentQuestion s) (answer s) (history s) (interviewing s)
    (isResumeValid s) (isProcessing s) (totalScore s) (questions s) v
    (resultAnalysis s) (selectedMcqOption s).
Definition setResultAnalysis v (s : State) : State :=
  Build_State (resumeText s) (skills s) (currentQuestionIndex s)
    (currentQuestion s) (answer s) (history s) (interviewing s)
    (isResumeValid s) (isProcessing s) (totalScore s) (questions s)
    (interviewCompleted s) v (selectedMcqOption s).
Definition setSelectedMcqOption v (s : State) : State :=
  Build_State (resumeText s) (skills s) (currentQuestionIndex s)
    (currentQuestion s) (answer s) (history s) (interviewing s)
    (isResumeValid s) (isProcessing s) (totalScore s) (questions s)
    (interviewCompleted s) (resultAnalysis s) v.


(** A chain of [set...] calls, written in the order of the source. *)
Notation "st '|>' f" := (f st) (at level 45, left associativity, only parsing).

(** *** Regular expressions of the component *)

(** [/^\d+\.\s*/] replaced by the empty string: a run of digits and a
    period at the very start go, with the white space after them. *)
Definition strip_number_marker (q : jsstring) : jsstring :=
  match takeWhile is_digit q, dropWhile is_digit q with
  | _ :: _, c :: rest => if Ascii.eqb c "."%char then dropWhile is_space rest else q
  | _, _ => q
  end.

(** [/Score: (\d+)\/10/i] tried at the start of [s]: the digits of group 1
    and the text after the match. *)
Definition score_re_at (s : jsstring) : option (jsstring * jsstring) :=
  match strip_prefix ci_eqb (js "Score: ") s with
  | None => None
  | Some s1 =>
      match takeWhile is_digit s1 with
      | [] => None
      | ds =>
          match strip_prefix ci_eqb (js "/10") (dropWhile is_digit s1) with
          | Some rest => Some (ds, rest)
          | None => None
          end
      end
  end.

(** The first match from the left: the text before it, group 1, the text
    after it. *)
Fixpoint score_re_search (s : jsstring)
  : option (jsstring * jsstring * jsstring) :=
  match score_re_at s with
  | Some (ds, rest) => Some ([], ds, rest)
  | None =>
      match s with
      | [] => None
      | c :: s' =>
          match score_re_search s' with
          | Some (pre, ds, rest) => Some (c :: pre, ds, rest)
          | None => None
          end
      end
  end.

(** The end of [/Score: \d+\/10\.?\s*/i]: a period, if there is one, and
    the white space that follows are part of the match. *)
Definition score_re_tail (rest : jsstring) : jsstring :=
  dropWhile is_space
    match rest with
    | c :: rest' => if Ascii.eqb c "."%char then rest' else rest
    | [] => []
    end.

(** [feedbackText.replace(/Score: \d+\/10\.?\s*/i, '')] *)
Definition remove_score (feedbackText : jsstring) : jsstring :=
  match score_re_search feedbackText with
  | Some (pre, _, rest) => pre ++ score_re_tail rest
  | None => feedbackText
  end.

(** Lines 174-177 of [handleAnswerSubmit]: the score and the feedback read
    from the content of the reply. *)
Definition feedbackText_of (content : option Completion) : jsstring :=
  match present content with
  | Some c => text c
  | None => js "No feedback available."
  end.

Definition score_of (feedbackText : jsstring) : Z :=
  match score_re_search feedbackText with
  | Some (_, ds, _) => parseInt ds
  | None => 5
  end.

Definition feedback_of (feedbackText : jsstring) : jsstring :=
  trim (remove_score feedbackText).

(** Lines 109-110 of [extractSkills]. *)
Definition extractedSkills_of (content : option Completion) : list jsstring :=
  match content with
  | Some c => map trim (split comma (text c))
  | None => []
  end.

(** Lines 126-132 of [generateQuestions]. *)
Definition nonblank (q : jsstring) : bool := 0 <? length (trim q).

Definition generatedQuestions_of (content : option Completion) : list jsstring :=
  match content with
  | Some c =>
      map (fun q => trim (strip_number_marker q))
        (filter nonblank (split newline (text c)))
  | None => []
  end.

(** Line 80 of [handleFileUpload]. *)
Definition isResume_of (content : option Completion) : bool :=
  match content with
  | Some c => includes (toLowerCase (text c)) (js "yes")
  | None => false
  end.

(** *** Validation of the result analysis (lines 243-265) *)

Definition performances : list jsstring :=
  [js "excellent"; js "good"; js "average"; js "needs improvement"].

Definition defaultAnalysis : ResultAnalysis :=
  {| overallPerformance := js "average";
     strengths := [VString (js "No strengths identified"); VString (js "N/A"); VString (js "N/A")];
     weaknesses := [VString (js "No weaknesses identified"); VString (js "N/A"); VString (js "N/A")];
     improvementSuggestions :=
       [VString (js "Review your answers"); VString (js "Practice more");
        VString (js "Study relevant materials")] |}.

(** The object of the [catch] block (lines 270-275). *)
Definition failedAnalysis : ResultAnalysis :=
  {| overallPerformance := js "average";
     strengths := [VString (js "Could not analyze"); VString (js "N/A"); VString (js "N/A")];
     weaknesses := [VString (js "Could not analyze"); VString (js "N/A"); VString (js "N/A")];
     improvementSuggestions :=
       [VString (js "Review your answers"); VString (js "Practice more");
        VString (js "Study relevant materials")] |}.

(** [p?.toLowerCase()]: [undefined] (here [Some None]) when [p] is [null] or
    [undefined], the lower-cased string when [p] is a string, and a
    [TypeError] ([None]) for every other value, which has no such method. *)
Definition toLowerCase_opt (p : value) : option (option jsstring) :=
  match p with
  | VUndefined | VNull => Some None
  | VString s => Some (Some (toLowerCase s))
  | _ => None
  end.

(** [performances.includes(x)] *)
Definition is_performance (x : option jsstring) : bool :=
  match x with
  | Some s => existsb (str_eqb s) performances
  | None => false
  end.

(** [Array.isArray(x) && x.length >= 3 ? [x[0], x[1], x[2]] : dflt] *)
Definition three_or (x : value) (dflt : list value) : list value :=
  match x with
  | VArray items =>
      if 3 <=? length items
      then [index items 0; index items 1; index items 2]
      else dflt
  | _ => dflt
  end.

(** The object literal [validatedAnalysis]; [None] when building it throws. *)
Definition validatedAnalysis (parsedAnalysis : value) : option ResultAnalysis :=
  match get parsedAnalysis (js "overallPerformance") with
  | None => None
  | Some p =>
      match toLowerCase_opt p with
      | None => None
      | Some lowered =>
          match get parsedAnalysis (js "strengths"),
                get parsedAnalysis (js "weaknesses"),
                get parsedAnalysis (js "improvementSuggestions") with
          | Some s, Some w, Some i =>
              Some {| overallPerformance :=
                        match lowered with
                        | Some l => if is_performance lowered then l
                                    else overallPerformance defaultAnalysis
                        | None => overallPerformance defaultAnalysis
                        end;
                      strengths := three_or s (strengths defaultAnalysis);
                      weaknesses := three_or w (weaknesses defaultAnalysis);
                      improvementSuggestions :=
                        three_or i (improvementSuggestions defaultAnalysis) |}
          | _, _, _ => None
          end
      end
  end.

(** [JSON.parse(content || "{}")]; the literal parses to the empty object. *)
Definition parse_rawAnalysis (content : option Completion) : option value :=
  match present content with
  | Some c => json c
  | None => Some (VObject [])
  end.

(** What [analyzeResults] stores for a reply: the whole [try] block, and
    the [catch] block for a rejected call, a text that does not parse and an
    exception of the validation. *)
Definition analysis_of (r : Reply) : ResultAnalysis :=
  match r with
  | Rejected => failedAnalysis
  | Replied content =>
      match parse_rawAnalysis content with
      | None => failedAnalysis
      | Some parsedAnalysis =>
          match validatedAnalysis parsedAnalysis with
          | Some v => v
          | None => failedAnalysis
          end
      end
  end.

(** *** Handlers *)

Definition analyzeResults (history : list Entry.ChatHistoryEntry) (st : State)
  : Proc State unit :=
  catch
    (Await st (AnalyzeResults (firstn 3 history)) (fun r =>
       match r with
       | Rejected => Throw st
       | Replied content =>
           match parse_rawAnalysis content with
           | None => Throw st
           | Some parsedAnalysis =>
               match validatedAnalysis parsedAnalysis with
               | Some v => Return (st |> setResultAnalysis (Some v)) tt
               | None => Throw st
               end
           end
       end))
    (fun st' => Return (st' |> setResultAnalysis (Some failedAnalysis)) tt).

Definition extractSkills (text : jsstring) (st : State) : Proc State unit :=
  Await st (ExtractSkills text) (fun r =>
    match r with
    | Rejected => Throw st
    | Replied content => Return (st |> setSkills (extractedSkills_of content)) tt
    end).

Definition generateQuestions (st : State) : Proc State (list jsstring) :=
  Await st (GenerateQuestions (skills st)) (fun r =>
    match r with
    | Rejected => Throw st
    | Replied content =>
        let generatedQuestions := generatedQuestions_of content in
        Return (st |> setQuestions (firstn 10 generatedQuestions))
               (firstn 10 generatedQuestions)
    end).

Definition startInterview (st : State) : Proc State unit :=
  if length (skills st) =? 0 then Return st tt
  else
    bind (generateQuestions
            (st |> setHistory [] |> setTotalScore 0%Z |> setInterviewing true
                |> setCurrentQuestionIndex 0 |> setInterviewCompleted false
                |> setSelectedMcqOption None))
      (fun st' generatedQuestions =>
         match generatedQuestions with
         | q :: _ => Return (st' |> setCurrentQuestion q) tt
         | [] => Return st' tt
         end).

Definition handleAnswerSubmit (st : State) : Proc State unit :=
  match trim (answer st) with
  | [] => Return st tt
  | _ :: _ =>
      Await st (ScoreAnswer (currentQuestion st) (answer st)) (fun r =>
        match r with
        | Rejected => Throw st
        | Replied content =>
            let feedbackText := feedbackText_of content in
            let score := score_of feedbackText in
            let feedback := feedback_of feedbackText in
            let newHistory :=
              history st ++
              [ {| Entry.question := currentQuestion st;
                   Entry.answer := answer st;
                   Entry.feedback := feedback;
                   Entry.score := score |} ] in
            let st1 := st |> setHistory newHistory
                          |> setTotalScore (totalScore st + score)%Z
                          |> setAnswer [] in
            if currentQuestionIndex st + 1 <? length (questions st) then
              Return (st1 |> setCurrentQuestionIndex (currentQuestionIndex st + 1)
                          |> setCurrentQuestion
                               (nth (currentQuestionIndex st + 1) (questions st) []))
                     tt
            else
              bind (analyzeResults newHistory st1) (fun st2 _ =>
                Return (st2 |> setInterviewing false
                            |> setInterviewCompleted true) tt)
        end)
  end.

(** What reading the chosen file gives: [None] when [pdfjsLib] throws on
    it, the extracted text otherwise. *)
Definition Pdf : Type := option jsstring.

(** [handleFileUpload] with the [onload] callback of the reader: [file] is
    [None] when no file was chosen. *)
Definition handleFileUpload (file : option Pdf) (st : State) : Proc State unit :=
  match file with
  | None => Return st tt
  | Some pdf =>
      let st0 := st |> setIsProcessing true |> setIsResumeValid None in
      finally
        (catch
           match pdf with
           | None => Throw st0
           | Some extractedText =>
               Await st0 (VerifyResume (substring0 1000 extractedText)) (fun r =>
                 match r with
                 | Rejected => Throw st0
                 | Replied content =>
                     if isResume_of content then
                       bind (extractSkills extractedText
                               (st0 |> setResumeText extractedText))
                         (fun st' _ => Return (st' |> setIsResumeValid (Some true)) tt)
                     else Return (st0 |> setIsResumeValid (Some false)) tt
                 end)
           end
           (fun st' => Return (st' |> setIsResumeValid (Some false)) tt))
        (setIsProcessing false)
  end.

(** The two buttons of the result page ([onClick], lines 378-383 and
    389-396). *)
Definition retakeInterview (st : State) : Proc State unit :=
  startInterview (st |> setInterviewCompleted false |> setHistory []
                     |> setTotalScore 0%Z).

Definition uploadNewResume (st : State) : State :=
  st |> setInterviewCompleted false |> setHistory [] |> setTotalScore 0%Z
     |> setSkills [] |> setResumeText [] |> setIsResumeValid None.

(** *** The page: what the user can do, and when *)

Inductive Event : Type :=
| Upload (file : option Pdf)
| Start
| TypeAnswer (a : jsstring)
| Submit
| Retake
| UploadNew
| SelectMcq (option : nat).

(** The result page is rendered when the interview is completed and an
    analysis is stored ([renderResults], line 296); everything else only
    when it is not completed (line 438). *)
Definition resultsShown (st : State) : bool :=
  interviewCompleted st &&
  match resultAnalysis st with Some _ => true | None => false end.

(** The form with the text area (line 478). *)
Definition formShown (st : State) : bool :=
  negb (interviewCompleted st) && interviewing st.

(** The start button (lines 458-463): rendered for a valid resume, disabled
    during an interview and without skills. *)
Definition startEnabled (st : State) : bool :=
  negb (interviewCompleted st) &&
  match isResumeValid st with Some true => true | _ => false end &&
  negb (interviewing st || (length (skills st) =? 0)).

Definition enabled (ev : Event) (st : State) : bool :=
  match ev with
  | Upload _ => negb (interviewCompleted st)
  | Start => startEnabled st
  | TypeAnswer _ | Submit => formShown st
  | Retake | UploadNew | SelectMcq _ => resultsShown st
  end.

Definition handler (ev : Event) (st : State) : Proc State unit :=
  match ev with
  | Upload file => handleFileUpload file st
  | Start => startInterview st
  | TypeAnswer a => Return (st |> setAnswer a) tt
  | Submit => handleAnswerSubmit st
  | Retake => retakeInterview st
  | UploadNew => Return (uploadNewResume st) tt
  | SelectMcq option => Return (st |> setSelectedMcqOption (Some option)) tt
  end.

(** An event with the replies the oracle gives while it is handled. *)
Definition fire (st : State) (step : Event * list Reply) : State :=
  let (ev, replies) := step in
  if enabled ev st then state_of (run (handler ev st) replies) else st.

Definition play (st : State) (steps : list (Event * list Reply)) : State :=
  fold_left fire steps st.

(** Typing an answer and submitting it; [analysis] is the reply to the
    result analysis, if this submission asks for one. *)
Definition answering (a : jsstring) (content : option Completion)
  (analysis : Reply) : list (Event * list Reply) :=
  [ (TypeAnswer a, []); (Submit, [Replied content; analysis]) ].

End InterviewAssistant.

(** ** [CodeEditor.tsx], the variant with test cases *)

Module CodeEditor.

(** [interface AnalysisResult]; a field that is absent is [VUndefined]. *)
Record AnalysisResult : Type := {
  timeComplexity : value;
  spaceComplexity : value;
  suggestion : value;
  correctedCode : value
}.

Inductive Tab : Type := testcases | results.

(** The [useState] cells of the component.  [question], [testCases] and
    [testResults] hold what the reply held, whatever its shape. *)
Record State : Type := {
  code : jsstring;
  question : value;
  analysis : AnalysisResult;
  loading : bool;
  language : jsstring;
  questionLoading : bool;
  showCorrectedCode : bool;
  difficulty : jsstring;
  topic : jsstring;
  testCases : value;
  testResults : value;
  runningTests : bool;
  activeTab : Tab;
  time : nat;
  isRunning : bool
}.

Definition notAnalyzed : AnalysisResult :=
  {| timeComplexity := VString (js "Not analyzed yet");
     spaceComplexity := VString (js "Not analyzed yet");
     suggestion := VUndefined;
     correctedCode := VUndefined |}.

Definition initial : State :=
  {| code := []; question := VString (js "Loading question...");
     analysis := notAnalyzed; loading := false; language := js "java";
     questionLoading := true; showCorrectedCode := false;
     difficulty := js "medium"; topic := js "array";
     testCases := VArray []; testResults := VArray [];
     runningTests := false; activeTab := testcases; time := 0;
     isRunning := false |}.

Definition setCode v (s : State) : State :=
  Build_State v (question s) (analysis s) (loading s) (language s)
    (questionLoading s) (showCorrectedCode s) (difficulty s) (topic s)
    (testCases s) (testResults s) (runningTests s) (activeTab s) (time s)
    (isRunning s).
Definition setQuestion v (s : State) : State :=
  Build_State (code s) v (analysis s) (loading s) (language s)
    (questionLoading s) (showCorrectedCode s) (difficulty s) (topic s)
    (testCases s) (testResults s) (runningTests s) (activeTab s) (time s)
    (isRunning s).
Definition setAnalysis v (s : State) : State :=
  Build_State (code s) (question s) v (loading s) (language s)
    (questionLoading s) (showCorrectedCode s) (difficulty s) (topic s)
    (testCases s) (testResults s) (runningTests s) (activeTab s) (time s)
    (isRunning s).
Definition setLoading v (s : State) : State :=
  Build_State (code s) (question s) (analysis s) v (language s)
    (questionLoading s) (showCorrectedCode s) (difficulty s) (topic s)
    (testCases s) (testResults s) (runningTests s) (activeTab s) (time s)
    (isRunning s).
Definition setLanguage v (s : State) : State :=
  Build_State (code s) (question s) (analysis s) (loading s) v
    (questionLoading s) (showCorrectedCode s) (difficulty s) (topic s)
    (testCases s) (testResults s) (runningTests s) (activeTab s) (time s)
    (isRunning s).
Definition setQuestionLoading v (s : State) : State :=
  Build_State (code s) (question s) (analysis s) (loading s) (language s)
    v (showCorrectedCode s) (difficulty s) (topic s) (testCases s)
    (testResults s) (runningTests s) (activeTab s) (time s) (isRunning s).
Definition setShowCorrectedCode v (s : State) : State :=
  Build_State (code s) (question s) (analysis s) (loading s) (language s)
    (questionLoading s) v (difficulty s) (topic s) (testCases s)
    (testResults s) (runningTests s) (activeTab s) (time s) (isRunning s).
Definition setDifficulty v (s : State) : State :=
  Build_State (code s) (question s) (analysis s) (loading s) (language s)
    (questionLoading s) (showCorrectedCode s) v (topic s) (testCases s)
    (testResults s) (runningTests s) (activeTab s) (time s) (isRunning s).
Definition setTopic v (s : State) : State :=
  Build_State (code s) (question s) (analysis s) (loading s) (language s)
    (questionLoading s) (showCorrectedCode s) (difficulty s) v (testCases
    s) (testResults s) (runningTests s) (activeTab s) (time s) (isRunning
    s).
Definition setTestCases v (s : State) : State :=
  Build_State (code s) (question s) (analysis s) (loading s) (language s)
    (questionLoading s) (showCorrectedCode s) (difficulty s) (topic s) v
    (testResults s) (runningTests s) (activeTab s) (time s) (isRunning s).
Definition setTestResults v (s : State) : State :=
  Build_State (code s) (question s) (analysis s) (loading s) (language s)
    (questionLoading s) (showCorrectedCode s) (difficulty s) (topic s)
    (testCases s) v (runningTests s) (activeTab s) (time s) (isRunning s).
Definition setRunningTests v (s : State) : State :=
  Build_State (code s) (question s) (analysis s) (loading s) (language s)
    (questionLoading s) (showCorrectedCode s) (difficulty s) (topic s)
    (testCases s) (testResults s) v (activeTab s) (time s) (isRunning s).
Definition setActiveTab v (s : State) : State :=
  Build_State (code s) (question s) (analysis s) (loading s) (language s)
    (questionLoading s) (showCorrectedCode s) (difficulty s) (topic s)
    (testCases s) (testResults s) (runningTests s) v (time s) (isRunning
    s).
Definition setTime v (s : State) : State :=
  Build_State (code s) (question s) (analysis s) (loading s) (language s)
    (questionLoading s) (showCorrectedCode s) (difficulty s) (topic s)
    (testCases s) (testResults s) (runningTests s) (activeTab s) v
    (isRunning s).
Definition setIsRunning v (s : State) : State :=
  Build_State (code s) (question s) (analysis s) (loading s) (language s)
    (questionLoading s) (showCorrectedCode s) (difficulty s) (topic s)
    (testCases s) (testResults s) (runningTests s) (activeTab s) (time s)
    v.

Notation "st '|>' f" := (f st) (at level 45, left associativity, only parsing).

(** *** Stopwatch *)

Definition startStopwatch (st : State) : State := st |> setIsRunning true.
Definition stopStopwatch (st : State) : State := st |> setIsRunning false.
Definition resetStopwatch (st : State) : State :=
  st |> setIsRunning false |> setTime 0.

(** One firing of the interval of the stopwatch effect, which exists only
    while [isRunning]. *)
Definition tick (st : State) : State :=
  if isRunning st then st |> setTime (time st + 1) else st.

(** *** Handlers *)

(** [generateQuestion] (lines 447-504 of the file).  The [try] block sets
    state only on its last lines, after everything that can throw. *)
Definition generateQuestion (st : State) : Proc State unit :=
  let st0 := st |> setQuestionLoading true |> resetStopwatch in
  finally
    (catch
       (Await st0
          (GenerateCodingQuestion (difficulty st) (language st) (topic st))
          (fun r =>
             match r with
             | Rejected => Throw st0
             | Replied content =>
                 match present content with
                 | None => Throw st0
                 | Some c =>
                     match json c with
                     | None => Throw st0
                     | Some result =>
                         match get result (js "question"),
                               get result (js "testCases") with
                         | Some q, Some t =>
                             Return
                               (st0 |> setQuestion
                                         (or_else q (VString (js "Couldn't generate question")))
                                    |> setTestCases (or_else t (VArray []))
                                    |> setTestResults (VArray [])
                                    |> setCode []
                                    |> setAnalysis notAnalyzed
                                    |> startStopwatch)
                               tt
                         | _, _ => Throw st0
                         end
                     end
                 end
             end))
       (fun st' =>
          Return
            (st' |> setQuestion
                      (VString (js "We couldn't load a question. Please check your connection and try again."))
                 |> stopStopwatch)
            tt))
    (setQuestionLoading false).

(** [runTestCases] (lines 579-633).  The two [alert] calls leave no trace
    in the state. *)
Definition runTestCases (st : State) : Proc State unit :=
  match trim (code st) with
  | [] => Return st tt
  | _ :: _ =>
      let st0 := st |> setRunningTests true |> setTestResults (VArray [])
                    |> setActiveTab results |> stopStopwatch in
      finally
        (catch
           (Await st0
              (RunTests (question st) (language st) (code st) (testCases st))
              (fun r =>
                 match r with
                 | Rejected => Throw st0
                 | Replied content =>
                     match present content with
                     | None => Throw st0
                     | Some c =>
                         match json c with
                         | None => Throw st0
                         | Some result =>
                             match get result (js "testResults") with
                             | Some t =>
                                 Return (st0 |> setTestResults (or_else t (VArray []))) tt
                             | None => Throw st0
                             end
                         end
                     end
                 end))
           (fun st' => Return st' tt))
        (setRunningTests false)
  end.

(** [generateNewQuestion], the handler of the button. *)
Definition generateNewQuestion (st : State) : Proc State unit :=
  generateQuestion st.

(** The effect on [language], [difficulty] and [topic] (lines 442-445): it
    runs on mount and after each change of one of the three.  Its own
    [resetStopwatch()] repeats the reset [generateQuestion] has just made. *)
Definition settingsEffect (st : State) : Proc State unit :=
  generateQuestion st.

Definition onLanguageChange (v : jsstring) (st : State) : Proc State unit :=
  settingsEffect (st |> setLanguage v).
Definition onDifficultyChange (v : jsstring) (st : State) : Proc State unit :=
  settingsEffect (st |> setDifficulty v).
Definition onTopicChange (v : jsstring) (st : State) : Proc State unit :=
  settingsEffect (st |> setTopic v).
Definition onMount : Proc State unit := settingsEffect initial.

(** The number of stored test cases: the length of the array, when it is
    one. *)
Definition stored_count (v : value) : option nat :=
  match v with
  | VArray items => Some (length items)
  | _ => None
  end.

End CodeEditor.

(** * More of the two components *)

Unset Implicit Arguments.

(** ** [InterviewAssistant.tsx]: the result page *)

Module ResultsPage.
Import InterviewAssistant.

(** [getPerformanceColor] (lines 285-293). *)
Definition getPerformanceColor (performance : jsstring) : jsstring :=
  let p := toLowerCase performance in
  if str_eqb p (js "excellent") then js "#4CAF50"
  else if str_eqb p (js "good") then js "#8BC34A"
  else if str_eqb p (js "average") then js "#FFC107"
  else if str_eqb p (js "needs improvement") then js "#F44336"
  else js "#9E9E9E".

End ResultsPage.

(** ** [CodeEditor.tsx]: the stopwatch display and the analysis *)

Module CodeAnalysis.
Import CodeEditor.

(** [n.toString()] for a whole number that is not negative: its decimal
    digits (JavaScript writes numbers from 10^21 on with an exponent). *)
Fixpoint uint_chars (d : Decimal.uint) : jsstring :=
  match d with
  | Decimal.Nil => []
  | Decimal.D0 d => "0"%char :: uint_chars d
  | Decimal.D1 d => "1"%char :: uint_chars d
  | Decimal.D2 d => "2"%char :: uint_chars d
  | Decimal.D3 d => "3"%char :: uint_chars d
  | Decimal.D4 d => "4"%char :: uint_chars d
  | Decimal.D5 d => "5"%char :: uint_chars d
  | Decimal.D6 d => "6"%char :: uint_chars d
  | Decimal.D7 d => "7"%char :: uint_chars d
  | Decimal.D8 d => "8"%char :: uint_chars d
  | Decimal.D9 d => "9"%char :: uint_chars d
  end.

Definition toString (n : nat) : jsstring := uint_chars (Nat.to_uint n).

(** [s.padStart(width, c)] for a filler of one character. *)
Definition padStart (width : nat) (c : ascii) (s : jsstring) : jsstring :=
  repeat c (width - length s) ++ s.

(** [formatTime] (lines 423-427). *)
Definition formatTime (totalSeconds : nat) : jsstring :=
  let minutes := totalSeconds / 60 in
  let seconds := totalSeconds mod 60 in
  padStart 2 "0"%char (toString minutes) ++ ":"%char
  :: padStart 2 "0"%char (toString seconds).

(** What a [catch] block finds in its hands: an [Error] with its message,
    or something else. *)
Inductive Thrown : Type :=
| AnError (message : jsstring)
| NotAnError.

(** The two exceptions of [analyzeCode] that the program does not create
    itself: what a rejected call carries, and the [TypeError] of reading a
    property of [null], whose message is the engine's. *)
Record Exceptions : Type := {
  rejection : Thrown;
  nullRead : jsstring
}.

(** The values interpolated in the prompt of [analyzeCode]. *)
Record AnalysisRequest : Type := {
  about : value;
  inLanguage : jsstring;
  solution : jsstring
}.

(** A handler that calls the oracle at most once and catches everything:
    it is done at once, or shows a state while it waits and ends in the
    state the reply leads to. *)
Inductive Once (S R : Type) : Type :=
| Immediately (st : S)
| Awaiting (waiting : S) (req : R) (k : Reply -> S).

Arguments Immediately {S R} st.
Arguments Awaiting {S R} waiting req k.

(** The analysis of the [catch] block (lines 566-573). *)
Definition analysisFailed (error : Thrown) : AnalysisResult :=
  {| timeComplexity := VString (js "Analysis failed");
     spaceComplexity := VString (js "Analysis failed");
     suggestion :=
       match error with
       | AnError message => VString (js "Suggestion: " ++ message)
       | NotAnError =>
           VString (js "Something went wrong. Please check your code and try again.")
       end;
     correctedCode := VUndefined |}.

(** The [try] block after the call (lines 548-565): the analysis to store,
    or what is thrown. *)
Definition analysis_of (ex : Exceptions) (r : Reply) : AnalysisResult + Thrown :=
  match r with
  | Rejected => inr (rejection ex)
  | Replied content =>
      match present content with
      | None =>
          inr (AnError (js "The analysis didn't return any results. Please try again."))
      | Some c =>
          match json c with
          | None =>
              inr (AnError (js "We couldn't understand the analysis response. Please try again."))
          | Some result =>
              match get result (js "timeComplexity"),
                    get result (js "spaceComplexity"),
                    get result (js "suggestion"),
                    get result (js "correctedCode") with
              | Some t, Some s, Some g, Some c' =>
                  inl {| timeComplexity :=
                           or_else t (VString (js "Could not determine"));
                         spaceComplexity :=
                           or_else s (VString (js "Could not determine"));
                         suggestion := g;
                         correctedCode := c' |}
              | _, _, _, _ => inr (AnError (nullRead ex))
              end
          end
      end
  end.

(** [analyzeCode] (lines 506-577). *)
Definition analyzeCode (ex : Exceptions) (st : State)
  : Once State AnalysisRequest :=
  match trim (code st) with
  | [] =>
      Immediately
        (st |> setAnalysis
                 {| timeComplexity := VString (js "Not analyzed");
                    spaceComplexity := VString (js "Not analyzed");
                    suggestion :=
                      VString (js "Please write your solution code first before analyzing.");
                    correctedCode := VUndefined |})
  | _ :: _ =>
      let st0 :=
        st |> setLoading true |> setShowCorrectedCode false
           |> setAnalysis
                {| timeComplexity := VString (js "Analyzing...");
                   spaceComplexity := VString (js "Analyzing...");
                   suggestion := VUndefined;
                   correctedCode := VUndefined |}
           |> stopStopwatch in
      Awaiting st0
        {| about := question st; inLanguage := language st;
           solution := code st |}
        (fun r =>
           match analysis_of ex r with
           | inl a => st0 |> setAnalysis a |> setLoading false
           | inr error => st0 |> setAnalysis (analysisFailed error)
                              |> setLoading false
           end)
  end.

(** The state [analyzeCode] ends in under a reply. *)
Definition analyzed (ex : Exceptions) (st : State) (r : Reply) : State :=
  match analyzeCode ex st with
  | Immediately st' => st'
  | Awaiting _ _ k => k r
  end.

(** [n] firings of the interval. *)
Definition ticks (n : nat) (st : State) : State := Nat.iter n tick st.

End CodeAnalysis.

(** ** [CodeEditor.tsx], the variant without test cases *)

Module CodeEditorV1.
Import CodeAnalysis.

(** The [useState] cells of this variant (lines 31-41 of the file); the
    question is always a string here. *)
Record State : Type := {
  code : jsstring;
  question : jsstring;
  analysis : CodeEditor.AnalysisResult;
  loading : bool;
  language : jsstring;
  questionLoading : bool;
  showCorrectedCode : bool;
  difficulty : jsstring;
  topic : jsstring
}.

Definition initial : State :=
  {| code := []; question := js "Loading question...";
     analysis := CodeEditor.notAnalyzed; loading := false;
     language := js "javascript"; questionLoading := true;
     showCorrectedCode := false; difficulty := js "medium";
     topic := js "array" |}.

Definition setCode v (s : State) : State :=
  Build_State v (question s) (analysis s) (loading s) (language s)
    (questionLoading s) (showCorrectedCode s) (difficulty s) (topic s).
Definition setQuestion v (s : State) : State :=
  Build_State (code s) v (analysis s) (loading s) (language s)
    (questionLoading s) (showCorrectedCode s) (difficulty s) (topic s).
Definition setAnalysis v (s : State) : State :=
  Build_State (code s) (question s) v (loading s) (language s)
    (questionLoading s) (showCorrectedCode s) (difficulty s) (topic s).
Definition setQuestionLoading v (s : State) : State :=
  Build_State (code s) (question s) (analysis s) (loading s) (language s)
    v (showCorrectedCode s) (difficulty s) (topic s).
Definition setShowCorrectedCode v (s : State) : State :=
  Build_State (code s) (question s) (analysis s) (loading s) (language s)
    (questionLoading s) v (difficulty s) (topic s).

Notation "st '|>' f" := (f st) (at level 45, left associativity, only parsing).

(** The values interpolated in the two prompts; [another] tells the prompt
    of the button, which asks for a new question, from the prompt of the
    effect. *)
Record QuestionRequest : Type := {
  another : bool;
  ofDifficulty : jsstring;
  inLanguage : jsstring;
  onTopic : jsstring
}.

(** The question a reply gives, with the sentence to show when the reply
    has no content and the one to show when the call is rejected. *)
Definition question_of (noContent rejected : string) (r : Reply) : jsstring :=
  match r with
  | Rejected => js rejected
  | Replied content =>
      match present content with
      | Some c => text c
      | None => js noContent
      end
  end.

(** [generateQuestion] (lines 53-81), which the effect on the settings
    runs. *)
Definition generateQuestion (st : State) : Once State QuestionRequest :=
  let st0 := st |> setQuestionLoading true in
  Awaiting st0
    {| another := false; ofDifficulty := difficulty st;
       inLanguage := language st; onTopic := topic st |}
    (fun r =>
       st0 |> setQuestion
                (question_of
                   "Couldn't generate a question. Click 'New Question' to try again."
                   "We couldn't load a question. Please check your connection and try again."
                   r)
           |> setQuestionLoading false).

(** [generateNewQuestion] (lines 154-189), the handler of the button. *)
Definition generateNewQuestion (st : State) : Once State QuestionRequest :=
  let st0 :=
    st |> setQuestionLoading true |> setCode []
       |> setShowCorrectedCode false
       |> setAnalysis CodeEditor.notAnalyzed in
  Awaiting st0
    {| another := true; ofDifficulty := difficulty st;
       inLanguage := language st; onTopic := topic st |}
    (fun r =>
       st0 |> setQuestion
                (question_of
                   "Couldn't generate a new question. Please try again."
                   "We couldn't load a new question. Please try again later."
                   r)
           |> setQuestionLoading false).

(** The state a handler of this variant ends in under a reply. *)
Definition after (h : Once State QuestionRequest) (r : Reply) : State :=
  match h with
  | Immediately st => st
  | Awaiting _ _ k => k r
  end.

End CodeEditorV1.

(** * Vocabulary of the properties *)

Unset Implicit Arguments.

(** ** Segments of a text *)

Module Segments.

Fixpoint join (sep : ascii) (segs : list jsstring) : jsstring :=
  match segs with
  | [] => []
  | [seg] => seg
  | seg :: rest => seg ++ sep :: join sep rest
  end.

End Segments.
Import Segments.

(** ** Replies to the skill extraction *)

Module SkillReplies.
Import InterviewAssistant.

Definition reply_with (t : jsstring) (j : option value) : Reply :=
  Replied (Some {| text := t; json := j |}).

End SkillReplies.

(** ** Replies made of numbered lines *)

Module QuestionLines.
Import InterviewAssistant.

(** A line of a reply made of numbered lines: white space only, or a
    number, a period and the rest of the line. *)
Inductive Line : Type :=
| Blank (ws : jsstring)
| Numbered (number rest : jsstring).

Definition render (l : Line) : jsstring :=
  match l with
  | Blank ws => ws
  | Numbered number rest => number ++ "."%char :: rest
  end.

Definition well_formed (l : Line) : Prop :=
  match l with
  | Blank ws => forallb is_space ws = true /\ ~ In newline ws
  | Numbered number rest =>
      number <> [] /\ forallb is_digit number = true /\ ~ In newline rest
  end.

(** The numbered lines, in order, without marker and trimmed. *)
Fixpoint numbered (lines : list Line) : list jsstring :=
  match lines with
  | [] => []
  | Blank _ :: rest => numbered rest
  | Numbered _ q :: rest => trim q :: numbered rest
  end.

Definition raw_text (lines : list Line) : jsstring :=
  join newline (map render lines).

Definition sample_lines : list Line :=
  [ Numbered (js "1") (js " What is a closure?");
    Blank (js "  ");
    Numbered (js "2") (js " Explain the event loop.");
    Numbered (js "3") (js " What is a promise?");
    Numbered (js "4") (js " How does hoisting work?");
    Numbered (js "5") (js " What is a pure function?");
    Blank (js "  ");
    Numbered (js "6") (js " Explain currying.");
    Numbered (js "7") (js " What is a generator?");
    Numbered (js "8") (js " What does strict mode change?");
    Numbered (js "9") (js " What is a prototype?");
    Numbered (js "10") (js " Explain debouncing.");
    Numbered (js "11") (js " What is memoization?") ].

End QuestionLines.

(** ** Outcome of an upload *)

Module ResumeOutcome.
Import InterviewAssistant.

(** The validity [handleFileUpload] ends with, read off its branches. *)
Definition validity (pdf : Pdf) (r1 r2 : Reply) : bool :=
  match pdf, r1 with
  | Some _, Replied content =>
      isResume_of content &&
      match r2 with Rejected => false | Replied _ => true end
  | _, _ => false
  end.

End ResumeOutcome.

(** ** Occurrences of the score pattern *)

Module ScoreMatch.
Import InterviewAssistant.







End ScoreMatch.

(** ** An interview under way *)

Module ScoringSamples.
Import InterviewAssistant.

(** An interview under way on its first question. *)
Definition asked (a : jsstring) : State :=
  initial |> setInterviewing true
          |> setQuestions [js "What is a closure?"; js "What is a promise?"]
          |> setCurrentQuestion (js "What is a closure?")
          |> setAnswer a.

End ScoringSamples.

(** ** The rule of the result analysis and two replies *)

Module AnalysisRule.
Import InterviewAssistant.

(** The rule for one of the three lists, in the words of the
    specification: the first three entries of a list of at least three,
    the default list otherwise. *)
Definition first_three_or (x : value) (dflt : list value) : list value :=
  match x with
  | VArray items => if 3 <=? length items then firstn 3 items else dflt
  | _ => dflt
  end.

(** The reply
    [{"overallPerformance":8,"strengths":["a","b","c"],"weaknesses":["d","e","f"]}]. *)
Definition numeric_performance : Completion :=
  {| text :=
       js "{" ++ quoted (js "overallPerformance") ++ js ":8,"
       ++ quoted (js "strengths") ++ js ":["
       ++ quoted (js "a") ++ js "," ++ quoted (js "b") ++ js ","
       ++ quoted (js "c") ++ js "],"
       ++ quoted (js "weaknesses") ++ js ":["
       ++ quoted (js "d") ++ js "," ++ quoted (js "e") ++ js ","
       ++ quoted (js "f") ++ js "]}";
     json :=
       Some (VObject
               [ (js "overallPerformance",
                  VNumber (S754_finite false 4503599627370496 (-49)));
                 (js "strengths",
                  VArray [VString (js "a"); VString (js "b"); VString (js "c")]);
                 (js "weaknesses",
                  VArray [VString (js "d"); VString (js "e"); VString (js "f")]) ]) |}.

(** The reply
    [{"overallPerformance":"GOOD","strengths":["a","b","c","d"],"weaknesses":["e","f"]}]. *)
Definition mixed_reply : Completion :=
  {| text :=
       js "{" ++ quoted (js "overallPerformance") ++ js ":"
       ++ quoted (js "GOOD") ++ js ","
       ++ quoted (js "strengths") ++ js ":["
       ++ quoted (js "a") ++ js "," ++ quoted (js "b") ++ js ","
       ++ quoted (js "c") ++ js "," ++ quoted (js "d") ++ js "],"
       ++ quoted (js "weaknesses") ++ js ":["
       ++ quoted (js "e") ++ js "," ++ quoted (js "f") ++ js "]}";
     json :=
       Some (VObject
               [ (js "overallPerformance", VString (js "GOOD"));
                 (js "strengths",
                  VArray [VString (js "a"); VString (js "b");
                          VString (js "c"); VString (js "d")]);
                 (js "weaknesses",
                  VArray [VString (js "e"); VString (js "f")]) ]) |}.

End AnalysisRule.

(** ** Replies with test cases *)

Module TestCaseReplies.
Import CodeEditor.

Definition test_case (input expected : string) : value :=
  VObject [ (js "input", VString (js input));
            (js "expectedOutput", VString (js expected)) ].

Definition test_case_text (input expected : string) : jsstring :=
  js "{" ++ quoted (js "input") ++ js ":" ++ quoted (js input) ++ js ","
  ++ quoted (js "expectedOutput") ++ js ":" ++ quoted (js expected) ++ js "}".

(** The reply
    [{"question":"Reverse a list.","testCases":[{"input":"[1,2]","expectedOutput":"[2,1]"}]}]. *)
Definition one_test_case : Completion :=
  {| text :=
       js "{" ++ quoted (js "question") ++ js ":"
       ++ quoted (js "Reverse a list.") ++ js ","
       ++ quoted (js "testCases") ++ js ":["
       ++ test_case_text "[1,2]" "[2,1]" ++ js "]}";
     json :=
       Some (VObject
               [ (js "question", VString (js "Reverse a list."));
                 (js "testCases", VArray [test_case "[1,2]" "[2,1]"]) ]) |}.

(** The same question with three test cases. *)
Definition three_test_cases : Completion :=
  {| text :=
       js "{" ++ quoted (js "question") ++ js ":"
       ++ quoted (js "Reverse a list.") ++ js ","
       ++ quoted (js "testCases") ++ js ":["
       ++ test_case_text "[1,2]" "[2,1]" ++ js ","
       ++ test_case_text "[]" "[]" ++ js ","
       ++ test_case_text "[7]" "[7]" ++ js "]}";
     json :=
       Some (VObject
               [ (js "question", VString (js "Reverse a list."));
                 (js "testCases",
                  VArray [test_case "[1,2]" "[2,1]"; test_case "[]" "[]";
                          test_case "[7]" "[7]"]) ]) |}.

End TestCaseReplies.

(** ** Failed runs *)

Module TestRunFailure.
Import CodeEditor.

(** The replies for which a run fails: the call is rejected, the content is
    missing or empty, or it is not JSON. *)
Definition failure (r : Reply) : Prop :=
  r = Rejected \/
  r = Replied None \/
  exists c, r = Replied (Some c) /\ (text c = [] \/ json c = None).

(** An editor showing the results of an earlier run. *)
Definition after_a_run : State :=
  initial |> setCode (js "return xs.reverse();")
          |> setTestCases (VArray [TestCaseReplies.test_case "[1,2]" "[2,1]"])
          |> setTestResults
               (VArray
                  [ VObject [ (js "input", VString (js "[1,2]"));
                              (js "expectedOutput", VString (js "[2,1]"));
                              (js "actualOutput", VString (js "[2,1]"));
                              (js "passed", VBool true) ] ]).

End TestRunFailure.

(** ** Submissions of an interview *)

Module Interview.
Import InterviewAssistant.

(** The number of submissions that ends an interview with [n] questions. *)
Definition needed (n : nat) : nat := Nat.max 1 n.

(** The index is below the number of questions, or 0 when there is none. *)
Definition in_range (st : State) : Prop :=
  currentQuestionIndex st < needed (length (questions st)).

(** A list of submissions: the answer typed, the content of the reply to
    the scoring, and the reply to the analysis if one is asked for. *)
Definition Submission : Type := jsstring * option Completion * Reply.

Definition steps_of (subs : list Submission) : list (Event * list Reply) :=
  flat_map (fun '(a, content, analysis) => answering a content analysis) subs.

Definition typed (sub : Submission) : jsstring := fst (fst sub).

(** An upload, a start with two questions, and two answers. *)
Definition plain (s : string) : option Completion :=
  Some {| text := js s; json := None |}.

Definition two_questions : option Completion :=
  Some {| text := js "1. What is a closure?" ++ newline
                  :: js "2. What is a join?";
          json := None |}.

Definition short_interview : list (Event * list Reply) :=
  [ (Upload (Some (Some (js "Jane Doe. Skills: JavaScript, SQL."))),
     [Replied (plain "yes"); Replied (plain "JavaScript, SQL")]);
    (Start, [Replied two_questions]) ]
  ++ answering (js "A function with its scope.")
       (plain "Score: 8/10. Feedback: Good.") Rejected
  ++ answering (js "A combination of tables.")
       (plain "Score: 6/10. Feedback: Fine.") (Replied None).

(** The interview of [short_interview] after its start, and its two
    submissions. *)
Definition started : State :=
  play initial
    [ (Upload (Some (Some (js "Jane Doe. Skills: JavaScript, SQL."))),
       [Replied (plain "yes"); Replied (plain "JavaScript, SQL")]);
      (Start, [Replied two_questions]) ].

Definition two_answers : list Submission :=
  [ (js "A function with its scope.",
     plain "Score: 8/10. Feedback: Good.", Rejected);
    (js "A combination of tables.",
     plain "Score: 6/10. Feedback: Fine.", Replied None) ].

End Interview.

(** ** Vocabulary of the further properties *)

Module Further.
Import InterviewAssistant.

(** A string without white space at either end. *)
Definition trimmed (s : jsstring) : Prop :=
  (forall c r, s = c :: r -> is_space c = false) /\
  (forall r c, s = r ++ [c] -> is_space c = false).

(** The sum of the scores of a history. *)
Definition total (h : list Entry.ChatHistoryEntry) : Z :=
  fold_right (fun e acc => Entry.score e + acc)%Z 0%Z h.

(** What holds of the state of the page at every moment. *)
Definition sound (st : State) : Prop :=
  totalScore st = total (history st) /\
  length (questions st) <= 10 /\
  (interviewCompleted st = true -> interviewing st = false).

(** The number of commas of a text. *)
Definition commas (t : jsstring) : nat := count_occ ascii_dec t comma.



(** The replies for which a generation of a coding question fails: the
    call is rejected, the content is missing or empty, it is not JSON, or
    it is the JSON [null]. *)
Definition generation_fails (r : Reply) : Prop :=
  r = Rejected \/
  r = Replied None \/
  exists c, r = Replied (Some c) /\
            (text c = [] \/ json c = None \/ json c = Some VNull).

(** The last question of an interview, with three records so far. *)
Definition answered (q : string) : Entry.ChatHistoryEntry :=
  {| Entry.question := js q; Entry.answer := js "An answer.";
     Entry.feedback := js "Fine."; Entry.score := 6%Z |}.

Definition last_of_four : State :=
  initial |> setInterviewing true
          |> setQuestions [js "A?"; js "B?"; js "C?"; js "D?"]
          |> setCurrentQuestionIndex 3
          |> setCurrentQuestion (js "D?")
          |> setHistory [answered "A?"; answered "B?"; answered "C?"]
          |> setTotalScore 18%Z
          |> setAnswer (js "The last answer.").

(** The verification accepts the document. *)
Definition accepted (r1 : Reply) : bool :=
  match r1 with
  | Replied content => isResume_of content
  | Rejected => false
  end.

End Further.

(** * Properties *)

(** ** Strings *)

Section StringFacts.

Lemma dropWhile_nil_iff (p : ascii -> bool) (s : jsstring) :
  dropWhile p s = [] <-> forallb p s = true.
Proof.
  induction s as [|c s IH]; simpl; [tauto|].
  destruct (p c); simpl; [exact IH|].
  split; discriminate.
Qed.

Lemma dropWhile_head (p : ascii -> bool) (s : jsstring) c r :
  dropWhile p s = c :: r -> p c = false.
Proof.
  induction s as [|a s IH]; simpl; [discriminate|].
  destruct (p a) eqn:E; [exact IH|].
  intros H; injection H as -> _; exact E.
Qed.

Lemma dropWhile_idem (p : ascii -> bool) (s : jsstring) :
  dropWhile p (dropWhile p s) = dropWhile p s.
Proof.
  induction s as [|a s IH]; simpl; [reflexivity|].
  destruct (p a) eqn:E; [exact IH|].
  simpl; rewrite E; reflexivity.
Qed.

Lemma takeWhile_dropWhile (p : ascii -> bool) (s : jsstring) :
  takeWhile p s ++ dropWhile p s = s.
Proof.
  induction s as [|a s IH]; simpl; [reflexivity|].
  destruct (p a); simpl; [f_equal; exact IH | reflexivity].
Qed.


(** A run of [p] characters followed by a character outside [p] is what
    the greedy [p+] takes: nothing shorter can be followed by it. *)
Lemma span_run (p : ascii -> bool) (run : jsstring) c rest :
  forallb p run = true -> p c = false ->
  takeWhile p (run ++ c :: rest) = run /\
  dropWhile p (run ++ c :: rest) = c :: rest.
Proof.
  intros Hrun Hc.
  induction run as [|a run IH]; simpl in *.
  - rewrite Hc; split; reflexivity.
  - apply andb_true_iff in Hrun as [Ha Hrun]; rewrite Ha.
    destruct (IH Hrun) as [-> ->]; split; reflexivity.
Qed.

Lemma forallb_rev (p : ascii -> bool) (s : jsstring) :
  forallb p (rev s) = forallb p s.
Proof.
  induction s as [|a s IH]; simpl; [reflexivity|].
  rewrite forallb_app, IH; simpl.
  rewrite andb_true_r; apply andb_comm.
Qed.

(** [!s.trim()] holds exactly for the strings made of white space. *)
Lemma trim_nil_iff (s : jsstring) :
  trim s = [] <-> forallb is_space s = true.
Proof.
  unfold trim, trimEnd, trimStart.
  split.
  - intros H.
    apply (f_equal (@rev ascii)) in H; rewrite rev_involutive in H; simpl in H.
    apply dropWhile_nil_iff in H; rewrite forallb_rev in H.
    destruct (dropWhile is_space s) as [|c r] eqn:E.
    + apply dropWhile_nil_iff; exact E.
    + apply dropWhile_head in E; simpl in H; rewrite E in H; discriminate.
  - intros H; apply dropWhile_nil_iff in H; rewrite H; reflexivity.
Qed.

Lemma trim_trimStart (s : jsstring) : trim (dropWhile is_space s) = trim s.
Proof. unfold trim, trimStart; rewrite dropWhile_idem; reflexivity. Qed.

Lemma split_cons (sep : ascii) (s : jsstring) :
  exists seg segs, split sep s = seg :: segs.
Proof.
  induction s as [|c s (seg & segs & IH)]; simpl; [eauto|].
  destruct (Ascii.eqb c sep); [eauto|].
  rewrite IH; eauto.
Qed.

Lemma split_free (sep : ascii) (seg : jsstring) :
  ~ In sep seg -> split sep seg = [seg].
Proof.
  induction seg as [|c seg IH]; simpl; intros H; [reflexivity|].
  destruct (Ascii.eqb_spec c sep) as [->|_]; [tauto|].
  rewrite IH by tauto; reflexivity.
Qed.

Lemma split_app (sep : ascii) (seg s : jsstring) :
  ~ In sep seg -> split sep (seg ++ sep :: s) = seg :: split sep s.
Proof.
  induction seg as [|c seg IH]; simpl; intros H.
  - rewrite Ascii.eqb_refl; reflexivity.
  - destruct (Ascii.eqb_spec c sep) as [->|_]; [tauto|].
    rewrite IH by tauto; reflexivity.
Qed.

(** [split] undoes [join]: the segments of a text are the pieces between
    its separators. *)
Lemma split_join (sep : ascii) (segs : list jsstring) :
  segs <> [] -> Forall (fun seg => ~ In sep seg) segs ->
  split sep (join sep segs) = segs.
Proof.
  induction segs as [|seg rest IH]; intros Hne Hfree; [congruence|].
  inversion Hfree as [|? ? Hseg Hrest]; subst.
  destruct rest as [|seg' rest'].
  - simpl; apply split_free; exact Hseg.
  - change (join sep (seg :: seg' :: rest'))
      with (seg ++ sep :: join sep (seg' :: rest')).
    rewrite split_app by exact Hseg.
    rewrite IH by (congruence || assumption); reflexivity.
Qed.

Lemma strip_prefix_eq (p s rest : jsstring) :
  strip_prefix Ascii.eqb p s = Some rest <-> s = p ++ rest.
Proof.
  revert s; induction p as [|a p IH]; intros s; simpl.
  - split; congruence.
  - destruct s as [|c s]; [split; discriminate|].
    destruct (Ascii.eqb_spec a c) as [->|Hne].
    + rewrite IH; split; congruence.
    + split; [discriminate | congruence].
Qed.

Lemma startsWith_iff (p s : jsstring) :
  startsWith p s = true <-> exists rest, s = p ++ rest.
Proof.
  unfold startsWith.
  destruct (strip_prefix Ascii.eqb p s) as [rest|] eqn:E.
  - apply strip_prefix_eq in E; split; eauto.
  - split; [discriminate|].
    intros [rest H]; apply strip_prefix_eq in H; congruence.
Qed.

(** [s.includes(p)] says that [p] occurs somewhere in [s]. *)
Lemma includes_iff (s p : jsstring) :
  includes s p = true <-> exists before after, s = before ++ p ++ after.
Proof.
  induction s as [|c s IH]; simpl.
  - rewrite orb_false_r, startsWith_iff; split.
    + intros [rest H]; exists [], rest; exact H.
    + intros (b & a & H); destruct b; [eauto|discriminate].
  - rewrite orb_true_iff, startsWith_iff, IH; split.
    + intros [[rest H] | (b & a & H)].
      * exists [], rest; exact H.
      * exists (c :: b), a; simpl; congruence.
    + intros (b & a & H); destruct b as [|c' b]; simpl in H.
      * left; eauto.
      * right; injection H as _ H; eauto.
Qed.

End StringFacts.

(** ** Answer submission with a blank answer *)

Module SubmitBlank.
Import InterviewAssistant.

(** C9.  When the answer is empty or made of white space only,
    [handleAnswerSubmit] returns at once with the state it was given:
    history, total score, index and current question are untouched, and
    whatever the oracle would have replied, no request is made. *)
Theorem blank_answer_changes_nothing (st : State) :
  forallb is_space (answer st) = true ->
  handleAnswerSubmit st = Return st tt /\
  forall replies,
    requests (handleAnswerSubmit st) replies = [] /\
    state_of (run (handleAnswerSubmit st) replies) = st.
Proof.
  intros Hblank.
  assert (E : handleAnswerSubmit st = Return st tt).
  { unfold handleAnswerSubmit.
    rewrite (proj2 (trim_nil_iff (answer st)) Hblank); reflexivity. }
  split; [exact E|].
  intros replies; rewrite E.
  destruct replies; split; reflexivity.
Qed.

Lemma blank_answer_changes_nothing_witness :
  let st := setHistory
              [ {| Entry.question := js "What is a monad?";
                   Entry.answer := js "a monoid";
                   Entry.feedback := js "Terse.";
                   Entry.score := 6%Z |} ]
              (setAnswer (js "  ") (setInterviewing true initial)) in
  handleAnswerSubmit st = Return st tt /\
  forall replies,
    requests (handleAnswerSubmit st) replies = [] /\
    state_of (run (handleAnswerSubmit st) replies) = st.
Proof.
  intros st; apply (blank_answer_changes_nothing st); reflexivity.
Defined.

End SubmitBlank.

(** ** Skill extraction *)

Module Skills.
Import InterviewAssistant SkillReplies.

(** The empty reply gives one skill, the empty string: [split] of the empty
    string has one segment and an array is never false under [||]. *)
Lemma empty_text_gives_one_empty_skill :
  let stored := skills (state_of (run (extractSkills (js "resume") initial)
                                      [reply_with [] None])) in
  stored = [ [] ] /\ stored <> [].
Proof. split; [reflexivity | discriminate]. Qed.

(** C3, as the code has it.  The skills stored for a reply are the
    segments between its commas, each trimmed; the empty text has one
    segment, so it gives the list with the empty string, and only a reply
    without content gives the empty list. *)
Theorem skills_are_trimmed_segments (resume : jsstring) (st : State) :
  (forall segs j,
      segs <> [] -> Forall (fun seg => ~ In comma seg) segs ->
      skills (state_of (run (extractSkills resume st)
                            [reply_with (join comma segs) j]))
      = map trim segs) /\
  (forall j,
      skills (state_of (run (extractSkills resume st) [reply_with [] j]))
      = [ [] ]) /\
  skills (state_of (run (extractSkills resume st) [Replied None])) = [].
Proof.
  split; [|split; intros; reflexivity].
  intros segs j Hne Hfree; simpl.
  rewrite split_join by assumption; reflexivity.
Qed.

Lemma skills_are_trimmed_segments_witness :
  skills (state_of (run (extractSkills (js "resume") initial)
                        [reply_with (js "a, b, c") None]))
  = [js "a"; js "b"; js "c"].
Proof.
  refine (proj1 (skills_are_trimmed_segments (js "resume") initial)
            [js "a"; js " b"; js " c"] None _ _).
  - discriminate.
  - repeat constructor; vm_compute; intuition discriminate.
Defined.

End Skills.

(** ** Question generation *)

Module Questions.
Import InterviewAssistant QuestionLines.

Lemma digit_not_space c : is_digit c = true -> is_space c = false.
Proof.
  unfold is_digit, is_space; cbv zeta; intros H.
  apply andb_true_iff in H as [H1 H2].
  apply N.leb_le in H1, H2.
  repeat rewrite orb_false_iff; repeat split.
  - apply andb_false_iff; right; apply N.leb_gt; lia.
  - apply N.eqb_neq; lia.
  - apply N.eqb_neq; lia.
Qed.

Lemma digits_free_of c (ds : jsstring) :
  is_digit c = false -> forallb is_digit ds = true -> ~ In c ds.
Proof.
  intros Hc Hds Hin.
  rewrite forallb_forall in Hds; apply Hds in Hin; congruence.
Qed.

Lemma nonblank_iff (q : jsstring) :
  nonblank q = negb (forallb is_space q).
Proof.
  unfold nonblank.
  destruct (forallb is_space q) eqn:E.
  - rewrite (proj2 (trim_nil_iff q) E); reflexivity.
  - destruct (trim q) eqn:T; [|reflexivity].
    apply trim_nil_iff in T; congruence.
Qed.

Lemma render_free (l : Line) : well_formed l -> ~ In newline (render l).
Proof.
  destruct l as [ws | number rest]; simpl.
  - tauto.
  - intros (_ & Hd & Hrest) Hin.
    apply in_app_or in Hin as [Hin | [Hin | Hin]].
    + revert Hin; apply digits_free_of; [reflexivity | exact Hd].
    + discriminate Hin.
    + tauto.
Qed.

Lemma strip_numbered number rest :
  number <> [] -> forallb is_digit number = true ->
  trim (strip_number_marker (number ++ "."%char :: rest)) = trim rest.
Proof.
  intros Hne Hd.
  unfold strip_number_marker.
  destruct (span_run is_digit number "."%char rest Hd eq_refl) as [-> ->].
  destruct number; [congruence|].
  simpl; apply trim_trimStart.
Qed.

Lemma nonblank_numbered number rest :
  number <> [] -> forallb is_digit number = true ->
  nonblank (number ++ "."%char :: rest) = true.
Proof.
  intros Hne Hd; rewrite nonblank_iff.
  destruct number as [|d ds]; [congruence|].
  simpl in *; apply andb_true_iff in Hd as [Hd _].
  rewrite (digit_not_space d Hd); reflexivity.
Qed.

(** Dropping the blank lines and stripping the markers leaves the numbered
    lines. *)
Lemma questions_of_lines (lines : list Line) :
  Forall well_formed lines ->
  map (fun q => trim (strip_number_marker q))
    (filter nonblank (map render lines))
  = numbered lines.
Proof.
  induction 1 as [|l lines Hl _ IH]; [reflexivity|].
  destruct l as [ws | number rest]; simpl in *.
  - destruct Hl as [Hws _].
    rewrite nonblank_iff, Hws; simpl; exact IH.
  - destruct Hl as (Hne & Hd & _).
    rewrite nonblank_numbered by assumption; simpl.
    rewrite strip_numbered by assumption.
    f_equal; exact IH.
Qed.

Lemma generated_of_lines (lines : list Line) (j : option value) :
  lines <> [] -> Forall well_formed lines ->
  generatedQuestions_of (Some {| text := raw_text lines; json := j |})
  = numbered lines.
Proof.
  intros Hne Hwf; unfold generatedQuestions_of, raw_text; simpl.
  rewrite split_join.
  - apply questions_of_lines; exact Hwf.
  - destruct lines; [congruence | discriminate].
  - apply Forall_map.
    eapply Forall_impl; [|exact Hwf].
    exact render_free.
Qed.

(** C5.  For a reply whose lines are blank or numbered, with at least ten
    numbered ones, [generateQuestions] stores and returns exactly ten
    questions: the first ten numbered lines in their order, each without
    its marker and trimmed; the blank lines are gone. *)
Theorem first_ten_numbered_lines
  (lines : list Line) (j : option value) (st : State) :
  Forall well_formed lines ->
  10 <= length (numbered lines) ->
  let kept := firstn 10 (numbered lines) in
  run (generateQuestions st)
      [Replied (Some {| text := raw_text lines; json := j |})]
  = Return (setQuestions kept st) kept /\
  length kept = 10 /\
  forall i, i < 10 -> nth_error kept i = nth_error (numbered lines) i.
Proof.
  intros Hwf Hlen kept.
  assert (Hne : lines <> []).
  { intros ->; simpl in Hlen; lia. }
  split; [|split].
  - change (run (generateQuestions st)
              [Replied (Some {| text := raw_text lines; json := j |})])
      with (let generatedQuestions :=
              generatedQuestions_of
                (Some {| text := raw_text lines; json := j |}) in
            Return (setQuestions (firstn 10 generatedQuestions) st)
              (firstn 10 generatedQuestions)).
    rewrite generated_of_lines by assumption; reflexivity.
  - unfold kept; rewrite length_firstn; lia.
  - intros i Hi; unfold kept.
    rewrite nth_error_firstn.
    apply Nat.ltb_lt in Hi; rewrite Hi; reflexivity.
Qed.

Lemma first_ten_numbered_lines_witness :
  let kept := firstn 10 (numbered sample_lines) in
  run (generateQuestions initial)
      [Replied (Some {| text := raw_text sample_lines; json := None |})]
  = Return (setQuestions kept initial) kept /\
  length kept = 10 /\
  forall i, i < 10 -> nth_error kept i = nth_error (numbered sample_lines) i.
Proof.
  apply (first_ten_numbered_lines sample_lines None initial).
  - repeat constructor; try discriminate;
      vm_compute; intuition discriminate.
  - vm_compute; repeat constructor.
Defined.

End Questions.

(** ** Resume verification *)

Module Resume.
Import InterviewAssistant ResumeOutcome.

Lemma upload_outcome (st : State) (pdf : Pdf) (r1 r2 : Reply) :
  let p := run (handleFileUpload (Some pdf) st) [r1; r2] in
  finished p = true /\
  isResumeValid (state_of p) = Some (validity pdf r1 r2) /\
  isProcessing (state_of p) = false.
Proof.
  destruct pdf as [extractedText|]; [|repeat split].
  destruct r1 as [|content]; [repeat split|].
  unfold validity.
  cbn [handleFileUpload run finally catch bind].
  destruct (isResume_of content); [|repeat split].
  destruct r2; repeat split.
Qed.

(** A reply that says yes, followed by a skill extraction that fails: the
    resume ends up invalid. *)
Lemma yes_then_failed_extraction :
  let reply := Replied (Some {| text := js "Yes"; json := None |}) in
  let final :=
    state_of (run (handleFileUpload (Some (Some (js "Jane Doe, engineer")))
                     initial)
                  [reply; Rejected]) in
  includes (toLowerCase (js "Yes")) (js "yes") = true /\
  isResumeValid final = Some false /\
  isResumeValid final <> Some true.
Proof. repeat split; discriminate. Qed.

(** C4, as the code has it.  After an upload the validity is decided, and
    it is true exactly when the document was read, the lower-cased reply of
    the verification contains [yes], and the skill extraction that follows
    did not fail; a failure of either round trip, a missing reply and any
    other reply give false. *)
Theorem validity_after_upload (st : State) (pdf : Pdf) (r1 r2 : Reply) :
  let final := state_of (run (handleFileUpload (Some pdf) st) [r1; r2]) in
  (isResumeValid final = Some true \/ isResumeValid final = Some false) /\
  (isResumeValid final = Some true <->
   exists extractedText c,
     pdf = Some extractedText /\
     r1 = Replied (Some c) /\
     (exists before after,
         toLowerCase (text c) = before ++ js "yes" ++ after) /\
     r2 <> Rejected).
Proof.
  intros final.
  destruct (upload_outcome st pdf r1 r2) as (_ & Hv & _).
  fold final in Hv; rewrite Hv.
  split; [destruct (validity pdf r1 r2); auto|].
  split.
  - intros H; injection H as H.
    destruct pdf as [extractedText|]; [|discriminate].
    destruct r1 as [|[c|]]; try discriminate.
    unfold validity, isResume_of in H.
    apply andb_true_iff in H as [Hyes Hr2].
    exists extractedText, c; repeat split.
    + apply includes_iff; exact Hyes.
    + destruct r2; [discriminate | discriminate].
  - intros (extractedText & c & -> & -> & Hyes & Hr2).
    unfold validity, isResume_of.
    apply includes_iff in Hyes; rewrite Hyes.
    destruct r2; [congruence | reflexivity].
Qed.

End Resume.

(** ** The score pattern *)

Module ScorePattern.
Import InterviewAssistant ScoreMatch.




















(** [parseInt] reads its digits as a decimal number. *)
Lemma parseInt_snoc (ds : jsstring) (d : ascii) :
  parseInt (ds ++ [d]) = (10 * parseInt ds + digit_value d)%Z.
Proof. unfold parseInt; rewrite fold_left_app; reflexivity. Qed.


(** The record a submission appends, whatever the analysis that may follow
    replies. *)
Lemma recorded_entry (st : State) (content : option Completion) (r2 : Reply) :
  trim (answer st) <> [] ->
  let t := feedbackText_of content in
  history (state_of (run (handleAnswerSubmit st) [Replied content; r2]))
  = history st ++
    [ {| Entry.question := currentQuestion st;
         Entry.answer := answer st;
         Entry.feedback := feedback_of t;
         Entry.score := score_of t |} ].
Proof.
  intros Hne t; unfold handleAnswerSubmit.
  destruct (trim (answer st)) as [|c r]; [congruence|].
  cbn [run].
  destruct (currentQuestionIndex st + 1 <? length (questions st));
    [reflexivity|].
  unfold analyzeResults; cbn [catch bind run].
  destruct r2 as [|content2]; [reflexivity|].
  destruct (parse_rawAnalysis content2) as [parsed|]; [|reflexivity].
  destruct (validatedAnalysis parsed); reflexivity.
Qed.

End ScorePattern.

(** ** Answer scoring *)

Module Scoring.
Import InterviewAssistant ScoreMatch ScorePattern ScoringSamples.

Lemma present_some (c : Completion) :
  text c <> [] -> present (Some c) = Some c.
Proof.
  unfold present; destruct (text c); [congruence | reflexivity].
Qed.

Lemma present_empty (c : Completion) :
  text c = [] -> present (Some c) = None.
Proof. unfold present; intros ->; reflexivity. Qed.




End Scoring.

(** ** The range of a recorded score *)

Module ScoreRange.
Import InterviewAssistant ScoreMatch ScorePattern.




End ScoreRange.

(** ** Validation of the result analysis *)

Module Analysis.
Import InterviewAssistant AnalysisRule.

Lemma str_eqb_eq (a b : jsstring) : str_eqb a b = true <-> a = b.
Proof.
  revert b; induction a as [|x a IH]; destruct b as [|y b]; simpl;
    try (split; congruence).
  rewrite andb_true_iff, Ascii.eqb_eq, IH; split.
  - intros [-> ->]; reflexivity.
  - intros H; injection H; auto.
Qed.

Lemma is_performance_iff (s : jsstring) :
  is_performance (Some s) = true <-> In s performances.
Proof.
  unfold is_performance; rewrite existsb_exists; split.
  - intros (x & Hx & E); apply str_eqb_eq in E; subst; exact Hx.
  - intros H; exists s; split; [exact H | apply str_eqb_eq; reflexivity].
Qed.

Lemma three_or_spec (x : value) (dflt : list value) :
  three_or x dflt = first_three_or x dflt.
Proof.
  destruct x as [ | | | | |items| ]; try reflexivity; simpl.
  destruct items as [|a [|b [|c rest]]]; reflexivity.
Qed.

Lemma three_or_length (x : value) (dflt : list value) :
  length dflt = 3 -> length (three_or x dflt) = 3.
Proof.
  intros H; destruct x as [ | | | | |items| ]; try exact H.
  unfold three_or; destruct (3 <=? length items); [reflexivity | exact H].
Qed.

Lemma analyzeResults_stores
  (history : list Entry.ChatHistoryEntry) (st : State) (r : Reply) :
  let p := run (analyzeResults history st) [r] in
  finished p = true /\ resultAnalysis (state_of p) = Some (analysis_of r).
Proof.
  unfold analyzeResults, analysis_of; cbn [catch run].
  destruct r as [|content]; [split; reflexivity|].
  destruct (parse_rawAnalysis content) as [parsed|]; [|split; reflexivity].
  destruct (validatedAnalysis parsed); split; reflexivity.
Qed.

Lemma average_is_a_performance : In (js "average") performances.
Proof. right; right; left; reflexivity. Qed.

(** What every stored analysis satisfies. *)
Lemma analysis_of_shape (r : Reply) :
  In (overallPerformance (analysis_of r)) performances /\
  length (strengths (analysis_of r)) = 3 /\
  length (weaknesses (analysis_of r)) = 3 /\
  length (improvementSuggestions (analysis_of r)) = 3.
Proof.
  assert (F : In (overallPerformance failedAnalysis) performances /\
              length (strengths failedAnalysis) = 3 /\
              length (weaknesses failedAnalysis) = 3 /\
              length (improvementSuggestions failedAnalysis) = 3)
    by (repeat split; apply average_is_a_performance).
  unfold analysis_of.
  destruct r as [|content]; [exact F|].
  destruct (parse_rawAnalysis content) as [parsed|]; [|exact F].
  unfold validatedAnalysis.
  destruct (get parsed (js "overallPerformance")) as [p|]; [|exact F].
  destruct (toLowerCase_opt p) as [lowered|]; [|exact F].
  destruct (get parsed (js "strengths")) as [s|]; [|exact F].
  destruct (get parsed (js "weaknesses")) as [w|]; [|exact F].
  destruct (get parsed (js "improvementSuggestions")) as [i|]; [|exact F].
  cbn [overallPerformance strengths weaknesses improvementSuggestions].
  repeat split; try (apply three_or_length; reflexivity).
  destruct lowered as [l|]; [|apply average_is_a_performance].
  destruct (is_performance (Some l)) eqn:E.
  - apply is_performance_iff; exact E.
  - apply average_is_a_performance.
Qed.

(** A reply that is not JSON: the lists stored are those of the [catch]
    block, not the default lists of the validation. *)
Lemma unparseable_reply_gets_other_lists :
  let content := Some {| text := js "Overall a good interview."; json := None |} in
  let final := state_of (run (analyzeResults [] initial) [Replied content]) in
  resultAnalysis final = Some failedAnalysis /\
  strengths failedAnalysis <> strengths defaultAnalysis /\
  weaknesses failedAnalysis <> weaknesses defaultAnalysis.
Proof. repeat split; discriminate. Qed.

(** With a number for [overallPerformance] the method call throws: the
    list of three strengths of the reply is not kept, and what is stored in
    its place is not the default list of the field either. *)
Lemma numeric_performance_loses_the_lists :
  let final :=
    state_of (run (analyzeResults [] initial)
                  [Replied (Some numeric_performance)]) in
  let given := VArray [VString (js "a"); VString (js "b"); VString (js "c")] in
  exists parsed a,
    json numeric_performance = Some parsed /\
    get parsed (js "strengths") = Some given /\
    resultAnalysis final = Some a /\
    strengths a <> first_three_or given (strengths defaultAnalysis) /\
    strengths a <> strengths defaultAnalysis.
Proof.
  eexists; eexists; repeat split; discriminate.
Qed.

(** C1, as the code has it.  [analyzeResults] always stores an analysis
    whose performance is one of the four and whose lists have three
    entries.  When the reply parses to a value whose [overallPerformance]
    is missing, [null] or a string, the performance is the lower-cased
    string if that is one of the four and [average] otherwise, and each
    list is the first three entries of its field when that is a list of
    at least three, and its own default list otherwise.  When the call
    fails or the reply does not parse, the analysis is the fixed one of the
    [catch] block. *)
Theorem stored_analysis
  (history : list Entry.ChatHistoryEntry) (st : State) (r : Reply) :
  let final := state_of (run (analyzeResults history st) [r]) in
  exists a,
    resultAnalysis final = Some a /\
    In (overallPerformance a) performances /\
    length (strengths a) = 3 /\
    length (weaknesses a) = 3 /\
    length (improvementSuggestions a) = 3 /\
    (forall content parsed p s w i,
        r = Replied content ->
        parse_rawAnalysis content = Some parsed ->
        get parsed (js "overallPerformance") = Some p ->
        (p = VUndefined \/ p = VNull \/ exists l, p = VString l) ->
        get parsed (js "strengths") = Some s ->
        get parsed (js "weaknesses") = Some w ->
        get parsed (js "improvementSuggestions") = Some i ->
        (forall l, p = VString l -> In (toLowerCase l) performances ->
                   overallPerformance a = toLowerCase l) /\
        ((forall l, p = VString l -> ~ In (toLowerCase l) performances) ->
         overallPerformance a = js "average") /\
        strengths a = first_three_or s (strengths defaultAnalysis) /\
        weaknesses a = first_three_or w (weaknesses defaultAnalysis) /\
        improvementSuggestions a
        = first_three_or i (improvementSuggestions defaultAnalysis)) /\
    ((r = Rejected \/
      exists content, r = Replied content /\ parse_rawAnalysis content = None) ->
     a = failedAnalysis).
Proof.
  intros final.
  destruct (analyzeResults_stores history st r) as [_ Hstored].
  exists (analysis_of r); split; [exact Hstored|].
  destruct (analysis_of_shape r) as (H1 & H2 & H3 & H4).
  repeat (split; [assumption|]).
  split.
  - intros content parsed p s w i -> Hparsed Hp Hkind Hs Hw Hi.
    unfold analysis_of, validatedAnalysis.
    rewrite Hparsed, Hp, Hs, Hw, Hi.
    rewrite <- !three_or_spec.
    destruct Hkind as [-> | [-> | [l ->]]]; cbn [toLowerCase_opt];
      cbn [overallPerformance strengths weaknesses improvementSuggestions].
    + repeat split; intros; congruence.
    + repeat split; intros; congruence.
    + repeat split.
      * intros l' E Hin; injection E as <-.
        apply is_performance_iff in Hin; rewrite Hin; reflexivity.
      * intros Hout.
        destruct (is_performance (Some (toLowerCase l))) eqn:E;
          [|reflexivity].
        apply is_performance_iff in E; exfalso; exact (Hout l eq_refl E).
  - intros [-> | (content & -> & Hnone)]; [reflexivity|].
    unfold analysis_of; rewrite Hnone; reflexivity.
Qed.

Lemma stored_analysis_witness :
  let final :=
    state_of (run (analyzeResults [] initial) [Replied (Some mixed_reply)]) in
  exists a,
    resultAnalysis final = Some a /\
    overallPerformance a = js "good" /\
    strengths a = [VString (js "a"); VString (js "b"); VString (js "c")] /\
    weaknesses a = weaknesses defaultAnalysis /\
    improvementSuggestions a = improvementSuggestions defaultAnalysis.
Proof.
  intros final.
  destruct (stored_analysis [] initial (Replied (Some mixed_reply)))
    as (a & Ha & _ & _ & _ & _ & Hvalid & _).
  exists a; split; [exact Ha|].
  destruct (Hvalid (Some mixed_reply)
              (VObject
                 [ (js "overallPerformance", VString (js "GOOD"));
                   (js "strengths",
                    VArray [VString (js "a"); VString (js "b");
                            VString (js "c"); VString (js "d")]);
                   (js "weaknesses",
                    VArray [VString (js "e"); VString (js "f")]) ])
              (VString (js "GOOD"))
              (VArray [VString (js "a"); VString (js "b");
                       VString (js "c"); VString (js "d")])
              (VArray [VString (js "e"); VString (js "f")])
              VUndefined
              eq_refl eq_refl eq_refl
              (or_intror (or_intror (ex_intro _ (js "GOOD") eq_refl)))
              eq_refl eq_refl eq_refl)
    as (Hperf & _ & Hs & Hw & Hi).
  repeat split; try assumption.
  apply (Hperf (js "GOOD") eq_refl).
  right; left; reflexivity.
Defined.

End Analysis.

(** ** Test cases of a generated question *)

Module TestCaseGeneration.
Import CodeEditor TestCaseReplies.

(** A generation that succeeds with a single test case in the reply: one
    test case is stored, not three. *)
Lemma one_test_case_is_stored :
  let p := run (generateQuestion initial) [Replied (Some one_test_case)] in
  finished p = true /\
  question (state_of p) = VString (js "Reverse a list.") /\
  isRunning (state_of p) = true /\
  stored_count (testCases (state_of p)) = Some 1 /\
  stored_count (testCases (state_of p)) <> Some 3.
Proof. repeat split; discriminate. Qed.

(** Every trigger of a generation runs [generateQuestion]. *)
Lemma triggers_generate (v : jsstring) (st : State) :
  onMount = generateQuestion initial /\
  onLanguageChange v st = generateQuestion (setLanguage v st) /\
  onDifficultyChange v st = generateQuestion (setDifficulty v st) /\
  onTopicChange v st = generateQuestion (setTopic v st) /\
  generateNewQuestion st = generateQuestion st.
Proof. repeat split. Qed.

(** C8, as the code has it.  A generation succeeds when the reply has a
    content that parses to a value other than [null].  It then stores the
    [question] of the reply, or a stock sentence, and as test cases the
    [testCases] of the reply as they are, or the empty list when that
    field is missing or false; the test results are emptied and the
    stopwatch is started.  Three test cases are stored exactly when the
    reply lists three. *)
Theorem stored_test_cases
  (st : State) (c : Completion) (result q t : value) :
  text c <> [] ->
  json c = Some result ->
  get result (js "question") = Some q ->
  get result (js "testCases") = Some t ->
  let p := run (generateQuestion st) [Replied (Some c)] in
  finished p = true /\
  question (state_of p)
  = (if truthy q then q else VString (js "Couldn't generate question")) /\
  testCases (state_of p) = (if truthy t then t else VArray []) /\
  testResults (state_of p) = VArray [] /\
  isRunning (state_of p) = true /\
  questionLoading (state_of p) = false /\
  (stored_count (testCases (state_of p)) = Some 3 <->
   exists items, t = VArray items /\ length items = 3).
Proof.
  intros Hc Hjson Hq Ht p.
  assert (E : p = Return
                (st |> setQuestionLoading true |> resetStopwatch
                    |> setQuestion
                         (or_else q (VString (js "Couldn't generate question")))
                    |> setTestCases (or_else t (VArray []))
                    |> setTestResults (VArray [])
                    |> setCode []
                    |> setAnalysis notAnalyzed
                    |> startStopwatch
                    |> setQuestionLoading false) tt).
  { unfold p, generateQuestion; cbn [finally catch run].
    rewrite (Scoring.present_some c Hc), Hjson, Hq, Ht; reflexivity. }
  rewrite E; cbn [state_of finished].
  repeat (split; [reflexivity|]).
  change (testCases _) with (or_else t (VArray [])).
  unfold or_else; split.
  - intros H.
    destruct (truthy t) eqn:Etruthy; [|discriminate H].
    destruct t as [ | | | | |items| ]; try discriminate H.
    injection H as H; eauto.
  - intros (items & -> & Hlen); simpl; rewrite Hlen; reflexivity.
Qed.

Lemma stored_test_cases_witness :
  let p := run (generateQuestion initial) [Replied (Some three_test_cases)] in
  finished p = true /\
  testResults (state_of p) = VArray [] /\
  stored_count (testCases (state_of p)) = Some 3.
Proof.
  intros p.
  assert (Hc : text three_test_cases <> []) by discriminate.
  destruct (stored_test_cases initial three_test_cases
              (VObject
                 [ (js "question", VString (js "Reverse a list."));
                   (js "testCases",
                    VArray [test_case "[1,2]" "[2,1]"; test_case "[]" "[]";
                            test_case "[7]" "[7]"]) ])
              (VString (js "Reverse a list."))
              (VArray [test_case "[1,2]" "[2,1]"; test_case "[]" "[]";
                       test_case "[7]" "[7]"])
              Hc eq_refl eq_refl eq_refl)
    as (Hfin & _ & _ & Hres & _ & _ & Hthree).
  split; [exact Hfin|].
  split; [exact Hres|].
  apply Hthree; eexists; split; reflexivity.
Defined.

End TestCaseGeneration.

(** ** Running the test cases *)

Module TestRun.
Import CodeEditor TestRunFailure.

(** C10.  With code in the editor, [runTestCases] empties the list of test
    results before it calls the oracle, and when the call fails or the
    reply is not JSON the handler ends with the list still empty: the
    results of an earlier run are gone. *)
Theorem failed_run_leaves_no_results (st : State) :
  trim (code st) <> [] ->
  exists st0 req k,
    runTestCases st = Await st0 req k /\
    testResults st0 = VArray [] /\
    forall r, failure r ->
      finished (k r) = true /\
      testResults (state_of (k r)) = VArray [] /\
      runningTests (state_of (k r)) = false.
Proof.
  intros Hcode; unfold runTestCases.
  destruct (trim (code st)) as [|c0 rest]; [congruence|].
  cbn [finally catch].
  eexists; eexists; eexists; split; [reflexivity|].
  split; [reflexivity|].
  intros r [-> | [-> | (c & -> & [Hc | Hj])]]; try (repeat split; fail).
  - rewrite (Scoring.present_empty c Hc); repeat split.
  - destruct (present (Some c)) as [c'|] eqn:E; [|repeat split].
    assert (c' = c) as ->.
    { unfold present in E; destruct (str_eqb (text c) []); congruence. }
    rewrite Hj; repeat split.
Qed.

Lemma failed_run_leaves_no_results_witness :
  testResults after_a_run <> VArray [] /\
  testResults (state_of (run (runTestCases after_a_run) [])) = VArray [] /\
  testResults (state_of (run (runTestCases after_a_run) [Rejected]))
  = VArray [].
Proof.
  assert (Hcode : trim (code after_a_run) <> []) by discriminate.
  destruct (failed_run_leaves_no_results after_a_run Hcode)
    as (st0 & req & k & E & Hbefore & Hafter).
  split; [discriminate|].
  rewrite E; cbn [run state_of].
  split; [exact Hbefore|].
  destruct (Hafter Rejected (or_introl eq_refl)) as (_ & Hempty & _).
  change (run (k Rejected) []) with (k Rejected); exact Hempty.
Defined.

End TestRun.

(** ** The course of an interview *)

Module Session.
Import InterviewAssistant Interview.

Section AlwaysFacts.
Context {S A B : Type} (P : S -> Prop).

Lemma always_run (p : Proc S A) (replies : list Reply) :
  Always P p -> P (state_of (run p replies)).
Proof.
  intros H; revert replies; induction H as [st a H|st H|st req k H _ IH];
    intros [|r rest]; simpl; auto.
Qed.

Lemma always_bind (p : Proc S A) (f : S -> A -> Proc S B) :
  Always P p -> (forall st a, P st -> Always P (f st a)) ->
  Always P (bind p f).
Proof.
  intros H Hf; induction H as [st a H|st H|st req k H _ IH]; simpl.
  - apply Hf; exact H.
  - constructor; exact H.
  - constructor; [exact H | exact IH].
Qed.

Lemma always_catch (p : Proc S A) (h : S -> Proc S A) :
  Always P p -> (forall st, P st -> Always P (h st)) ->
  Always P (catch p h).
Proof.
  intros H Hh; induction H as [st a H|st H|st req k H _ IH]; simpl.
  - constructor; exact H.
  - apply Hh; exact H.
  - constructor; [exact H | exact IH].
Qed.

Lemma always_finally (p : Proc S A) (f : S -> S) :
  Always P p -> (forall st, P st -> P (f st)) ->
  Always P (finally p f).
Proof.
  intros H Hf; induction H as [st a H|st H|st req k H _ IH]; simpl.
  - constructor; apply Hf; exact H.
  - constructor; apply Hf; exact H.
  - constructor; [exact H | exact IH].
Qed.

End AlwaysFacts.

Ltac always_step :=
  match goal with
  | |- Always _ (Return _ _) => apply Always_Return
  | |- Always _ (Throw _) => apply Always_Throw
  | |- Always _ (Await _ _ _) => apply Always_Await; [|intros ?]
  | |- Always _ (bind _ _) => apply always_bind; [|intros ? ? ?]
  | |- Always _ (catch _ _) => apply always_catch; [|intros ? ?]
  | |- Always _ (finally _ _) => apply always_finally; [|intros ? ?]
  | |- Always _ (match ?x with _ => _ end) => destruct x eqn:?
  end.

Ltac in_range_done :=
  unfold in_range, needed in *; cbn [currentQuestionIndex questions
    setResumeText setSkills setCurrentQuestionIndex setCurrentQuestion
    setAnswer setHistory setInterviewing setIsResumeValid setIsProcessing
    setTotalScore setQuestions setInterviewCompleted setResultAnalysis
    setSelectedMcqOption uploadNewResume] in *;
  try assumption; try lia.

Lemma analyzeResults_in_range history st :
  in_range st -> Always in_range (analyzeResults history st).
Proof.
  intros H; unfold analyzeResults; repeat always_step; in_range_done.
Qed.

Lemma handleAnswerSubmit_in_range st :
  in_range st -> Always in_range (handleAnswerSubmit st).
Proof.
  intros H; unfold handleAnswerSubmit.
  destruct (trim (answer st)); repeat always_step; try (in_range_done; fail).
  - apply Nat.ltb_lt in Heqb; in_range_done.
  - apply analyzeResults_in_range; in_range_done.
Qed.

Lemma startInterview_in_range st :
  in_range st -> Always in_range (startInterview st).
Proof.
  intros H; unfold startInterview, generateQuestions.
  destruct (length (skills st) =? 0); repeat always_step; in_range_done.
Qed.

Lemma handleFileUpload_in_range file st :
  in_range st -> Always in_range (handleFileUpload file st).
Proof.
  intros H; unfold handleFileUpload, extractSkills.
  repeat always_step; in_range_done.
Qed.

Lemma handler_in_range ev st :
  in_range st -> Always in_range (handler ev st).
Proof.
  intros H; destruct ev; cbn [handler].
  - apply handleFileUpload_in_range; exact H.
  - apply startInterview_in_range; exact H.
  - constructor; exact H.
  - apply handleAnswerSubmit_in_range; exact H.
  - apply startInterview_in_range; exact H.
  - constructor; exact H.
  - constructor; exact H.
Qed.

Lemma play_in_range steps st : in_range st -> in_range (play st steps).
Proof.
  revert st; induction steps as [|[ev replies] steps IH]; intros st H;
    [exact H|].
  apply IH; unfold fire.
  destruct (enabled ev st); [|exact H].
  apply always_run, handler_in_range; exact H.
Qed.

Lemma submit_outcome (st : State) (content : option Completion) (r2 : Reply) :
  trim (answer st) <> [] ->
  let p := run (handleAnswerSubmit st) [Replied content; r2] in
  finished p = true /\
  questions (state_of p) = questions st /\
  (currentQuestionIndex st + 1 < length (questions st) ->
   currentQuestionIndex (state_of p) = currentQuestionIndex st + 1 /\
   interviewing (state_of p) = interviewing st /\
   interviewCompleted (state_of p) = interviewCompleted st) /\
  (~ currentQuestionIndex st + 1 < length (questions st) ->
   currentQuestionIndex (state_of p) = currentQuestionIndex st /\
   interviewing (state_of p) = false /\
   interviewCompleted (state_of p) = true /\
   resultAnalysis (state_of p) <> None).
Proof.
  intros Hne; unfold handleAnswerSubmit.
  destruct (trim (answer st)) as [|c0 rest]; [congruence|].
  cbn [run].
  destruct (currentQuestionIndex st + 1 <? length (questions st)) eqn:E.
  - apply Nat.ltb_lt in E.
    repeat split; try reflexivity; intros; lia.
  - apply Nat.ltb_ge in E.
    unfold analyzeResults; cbn [catch bind run].
    destruct r2 as [|content2];
      [repeat split; try reflexivity; intros; try lia; discriminate|].
    destruct (parse_rawAnalysis content2) as [parsed|];
      [|repeat split; try reflexivity; intros; try lia; discriminate].
    destruct (validatedAnalysis parsed);
      repeat split; try reflexivity; intros; try lia; discriminate.
Qed.

Lemma answer_step (st : State) (sub : Submission) :
  formShown st = true -> trim (typed sub) <> [] ->
  let st' := play st (steps_of [sub]) in
  questions st' = questions st /\
  (currentQuestionIndex st + 1 < length (questions st) ->
   currentQuestionIndex st' = currentQuestionIndex st + 1 /\
   formShown st' = true) /\
  (~ currentQuestionIndex st + 1 < length (questions st) ->
   currentQuestionIndex st' = currentQuestionIndex st /\
   interviewing st' = false /\
   interviewCompleted st' = true /\
   resultAnalysis st' <> None).
Proof.
  destruct sub as [[a content] r2]; unfold typed; cbn [fst].
  intros Hshown Hne.
  unfold steps_of, answering, play; cbn [flat_map app fold_left fire].
  cbn [enabled handler]; rewrite Hshown.
  change (state_of (run (Return (st |> setAnswer a) tt) []))
    with (st |> setAnswer a).
  change (formShown (st |> setAnswer a)) with (formShown st); rewrite Hshown.
  destruct (submit_outcome (st |> setAnswer a) content r2 Hne)
    as (_ & Hq & Hnext & Hlast).
  set (st' := state_of
                (run (handleAnswerSubmit (st |> setAnswer a))
                   [Replied content; r2])) in *.
  split; [exact Hq|]; split.
  - intros Hlt; destruct (Hnext Hlt) as (Hi & Hint & Hdone).
    split; [exact Hi|].
    unfold formShown; rewrite Hint, Hdone; exact Hshown.
  - exact Hlast.
Qed.

Lemma play_app (st : State) (xs ys : list (Event * list Reply)) :
  play st (xs ++ ys) = play (play st xs) ys.
Proof. apply fold_left_app. Qed.

(** Once the form is gone, submissions do nothing. *)
Lemma play_form_gone (st : State) (subs : list Submission) :
  formShown st = false -> play st (steps_of subs) = st.
Proof.
  intros H; induction subs as [|[[a content] r2] subs IH]; [reflexivity|].
  change (steps_of ((a, content, r2) :: subs))
    with (answering a content r2 ++ steps_of subs).
  rewrite play_app.
  unfold answering, play at 2; cbn [fold_left fire enabled]; rewrite H.
  cbn [enabled]; rewrite H.
  exact IH.
Qed.

Lemma steps_of_cons (sub : Submission) (subs : list Submission) :
  steps_of (sub :: subs) = steps_of [sub] ++ steps_of subs.
Proof.
  unfold steps_of; cbn [flat_map]; rewrite app_nil_r; reflexivity.
Qed.

Lemma session_progress (subs : list Submission) : forall st : State,
  formShown st = true ->
  currentQuestionIndex st < needed (length (questions st)) ->
  Forall (fun sub => trim (typed sub) <> []) subs ->
  let final := play st (steps_of subs) in
  let reached := currentQuestionIndex st + length subs in
  questions final = questions st /\
  (reached < needed (length (questions st)) ->
   interviewCompleted final = false /\
   interviewing final = true /\
   currentQuestionIndex final = reached) /\
  (needed (length (questions st)) <= reached ->
   interviewCompleted final = true /\
   interviewing final = false /\
   currentQuestionIndex final = needed (length (questions st)) - 1 /\
   resultAnalysis final <> None).
Proof.
  unfold needed.
  induction subs as [|sub subs IH]; intros st Hshown Hidx Hsubs; cbn zeta.
  - cbn [steps_of flat_map play fold_left length].
    split; [reflexivity|]; split; [|lia].
    intros _; unfold formShown in Hshown.
    apply andb_true_iff in Hshown as [Hc Hi].
    apply negb_true_iff in Hc; repeat split; [assumption | assumption | lia].
  - inversion Hsubs as [|? ? Hsub Hrest]; subst.
    rewrite steps_of_cons, play_app.
    destruct (answer_step st sub Hshown Hsub) as (Hq & Hnext & Hlast).
    set (st' := play st (steps_of [sub])) in *.
    destruct (Nat.lt_ge_cases (currentQuestionIndex st + 1)
                (length (questions st))) as [Hlt | Hge].
    + destruct (Hnext Hlt) as (Hi & Hshown').
      destruct (IH st' Hshown') as (Hq' & Hgo & Hend);
        [rewrite Hq, Hi; lia | exact Hrest |].
      rewrite Hq, Hi in *; cbn [length].
      split; [rewrite Hq'; reflexivity|]; split.
      * intros H; destruct Hgo as (? & ? & ?); [lia|].
        repeat split; [assumption | assumption | lia].
      * intros H; apply Hend; lia.
    + destruct (Hlast ltac:(lia)) as (Hi & Hint & Hdone & Hres).
      rewrite play_form_gone
        by (unfold formShown; rewrite Hdone; reflexivity).
      cbn [length].
      split; [exact Hq|]; split; [lia|].
      intros _; repeat split; [assumption | assumption | lia | assumption].
Qed.

(** The submission that ends the interview asks for the analysis and sets
    the completion flag only after its reply. *)
Lemma analysis_before_completion
  (st : State) (content : option Completion) (r2 : Reply) :
  trim (answer st) <> [] ->
  ~ currentQuestionIndex st + 1 < length (questions st) ->
  (exists shown,
      requests (handleAnswerSubmit st) [Replied content; r2]
      = [ScoreAnswer (currentQuestion st) (answer st); AnalyzeResults shown]) /\
  finished (run (handleAnswerSubmit st) [Replied content]) = false /\
  interviewCompleted (state_of (run (handleAnswerSubmit st) [Replied content]))
  = interviewCompleted st /\
  resultAnalysis (state_of (run (handleAnswerSubmit st) [Replied content]))
  = resultAnalysis st /\
  interviewCompleted
    (state_of (run (handleAnswerSubmit st) [Replied content; r2]))
  = true.
Proof.
  intros Hne Hlast; unfold handleAnswerSubmit.
  destruct (trim (answer st)) as [|c0 rest]; [congruence|].
  cbn [run requests].
  destruct (currentQuestionIndex st + 1 <? length (questions st)) eqn:E;
    [apply Nat.ltb_lt in E; contradiction|].
  unfold analyzeResults; cbn [catch bind run requests state_of finished].
  destruct r2 as [|content2];
    [split; [eexists; reflexivity | repeat split]|].
  destruct (parse_rawAnalysis content2) as [parsed|];
    [|split; [eexists; reflexivity | repeat split]].
  destruct (validatedAnalysis parsed);
    (split; [eexists; reflexivity | repeat split]).
Qed.

(** The interview is completed with the index at 1, below the count of
    2: the last submission does not advance the index. *)
Lemma completed_below_the_count :
  let final := play initial short_interview in
  interviewCompleted final = true /\
  totalScore final = 14%Z /\
  length (history final) = 2 /\
  length (questions final) = 2 /\
  currentQuestionIndex final = 1 /\
  currentQuestionIndex final <> length (questions final).
Proof. vm_compute; repeat split; discriminate. Qed.

(** C7, as the code has it.  Whatever the user does, the index stays below
    the number of questions (at 0 when there is none), so it never exceeds
    it.  In an interview the submissions advance the index one by one;
    the submission for which the index plus one is no longer below the
    number of questions sets the completion flag and leaves the index
    where it is, and no later submission is taken.  That submission asks
    for the result analysis first and sets the flag after its reply. *)
Theorem interview_progress :
  (forall steps,
      let st := play initial steps in
      currentQuestionIndex st <= length (questions st) /\
      (questions st <> [] -> currentQuestionIndex st < length (questions st))) /\
  (forall (st : State) (subs : list Submission),
      formShown st = true ->
      currentQuestionIndex st < needed (length (questions st)) ->
      Forall (fun sub => trim (typed sub) <> []) subs ->
      let final := play st (steps_of subs) in
      let reached := currentQuestionIndex st + length subs in
      questions final = questions st /\
      (reached < needed (length (questions st)) ->
       interviewCompleted final = false /\
       interviewing final = true /\
       currentQuestionIndex final = reached) /\
      (needed (length (questions st)) <= reached ->
       interviewCompleted final = true /\
       interviewing final = false /\
       currentQuestionIndex final = needed (length (questions st)) - 1 /\
       resultAnalysis final <> None)) /\
  (forall (st : State) (content : option Completion) (r2 : Reply),
      trim (answer st) <> [] ->
      ~ currentQuestionIndex st + 1 < length (questions st) ->
      (exists shown,
          requests (handleAnswerSubmit st) [Replied content; r2]
          = [ScoreAnswer (currentQuestion st) (answer st);
             AnalyzeResults shown]) /\
      finished (run (handleAnswerSubmit st) [Replied content]) = false /\
      interviewCompleted
        (state_of (run (handleAnswerSubmit st) [Replied content]))
      = interviewCompleted st /\
      resultAnalysis
        (state_of (run (handleAnswerSubmit st) [Replied content]))
      = resultAnalysis st /\
      interviewCompleted
        (state_of (run (handleAnswerSubmit st) [Replied content; r2]))
      = true).
Proof.
  split; [|split].
  - intros steps st.
    assert (H : in_range st)
      by (apply play_in_range; unfold in_range, needed; simpl; lia).
    unfold in_range, needed in H; split.
    + destruct (questions st); simpl in *; lia.
    + intros Hne; destruct (questions st); [congruence | simpl in *; lia].
  - intros st subs; apply session_progress.
  - exact analysis_before_completion.
Qed.

Lemma interview_progress_witness :
  let final := play started (steps_of two_answers) in
  interviewCompleted final = true /\
  interviewing final = false /\
  currentQuestionIndex final = 1 /\
  resultAnalysis final <> None.
Proof.
  destruct interview_progress as (_ & Hsession & _).
  destruct (Hsession started two_answers) as (_ & _ & Hend).
  - reflexivity.
  - vm_compute; lia.
  - repeat constructor; discriminate.
  - apply Hend; vm_compute; lia.
Defined.

End Session.

(** ** What the page keeps true *)

Module PageInvariants.
Import InterviewAssistant Interview Further Session.

Lemma total_app (h : list Entry.ChatHistoryEntry) (e : Entry.ChatHistoryEntry) :
  total (h ++ [e]) = (total h + Entry.score e)%Z.
Proof.
  unfold total; induction h as [|x h IH]; simpl; [lia|].
  rewrite IH; lia.
Qed.

Ltac sound_done :=
  unfold sound in *;
  cbn [totalScore history questions interviewCompleted interviewing
       setResumeText setSkills setCurrentQuestionIndex setCurrentQuestion
       setAnswer setHistory setInterviewing setIsResumeValid setIsProcessing
       setTotalScore setQuestions setInterviewCompleted setResultAnalysis
       setSelectedMcqOption uploadNewResume] in *;
  repeat match goal with H : _ /\ _ |- _ => destruct H end;
  repeat split;
  try assumption; try reflexivity; try (intros; congruence);
  try (rewrite total_app; cbn [Entry.score]; congruence);
  try (rewrite length_firstn; lia).

Lemma analyzeResults_sound history st :
  sound st -> Always sound (analyzeResults history st).
Proof.
  intros H; unfold analyzeResults; repeat always_step; sound_done.
Qed.

Lemma handleAnswerSubmit_sound st :
  sound st -> Always sound (handleAnswerSubmit st).
Proof.
  intros H; unfold handleAnswerSubmit.
  destruct (trim (answer st)); repeat always_step; try (sound_done; fail).
  apply analyzeResults_sound; sound_done.
Qed.

Lemma startInterview_sound st :
  sound st -> Always sound (startInterview st).
Proof.
  intros H; unfold startInterview, generateQuestions.
  destruct (length (skills st) =? 0); repeat always_step; sound_done.
Qed.

Lemma retakeInterview_sound st :
  sound st -> Always sound (retakeInterview st).
Proof.
  intros H; unfold retakeInterview, startInterview, generateQuestions.
  cbn [skills setInterviewCompleted setHistory setTotalScore].
  destruct (length (skills st) =? 0); repeat always_step; sound_done.
Qed.

Lemma handleFileUpload_sound file st :
  sound st -> Always sound (handleFileUpload file st).
Proof.
  intros H; unfold handleFileUpload, extractSkills.
  repeat always_step; sound_done.
Qed.

Lemma handler_sound ev st : sound st -> Always sound (handler ev st).
Proof.
  intros H; destruct ev; cbn [handler].
  - apply handleFileUpload_sound; exact H.
  - apply startInterview_sound; exact H.
  - constructor; sound_done.
  - apply handleAnswerSubmit_sound; exact H.
  - apply retakeInterview_sound; exact H.
  - constructor; sound_done.
  - constructor; sound_done.
Qed.

Lemma play_sound steps st : sound st -> sound (play st steps).
Proof.
  revert st; induction steps as [|[ev replies] steps IH]; intros st H;
    [exact H|].
  apply IH; unfold fire.
  destruct (enabled ev st); [|exact H].
  apply always_run, handler_sound; exact H.
Qed.

Lemma initial_sound : sound initial.
Proof. repeat split; simpl; try lia; discriminate. Qed.


(** X2.  There are never more than ten questions. *)
Theorem never_more_than_ten_questions (steps : list (Event * list Reply)) :
  length (questions (play initial steps)) <= 10.
Proof. apply (play_sound steps initial initial_sound). Qed.

(** X3.  On the result page, the button to upload a new resume leaves a
    page on which nothing but an upload can be done: no interview is under
    way, no resume counts as valid, and skills, history and total are
    empty. *)
Theorem upload_new_leaves_only_the_upload (steps : list (Event * list Reply)) :
  let st := play initial steps in
  resultsShown st = true ->
  let st' := play st [(UploadNew, [])] in
  (forall ev, enabled ev st' = true -> exists file, ev = Upload file) /\
  skills st' = [] /\ history st' = [] /\ totalScore st' = 0%Z /\
  resumeText st' = [] /\ isResumeValid st' = None.
Proof.
  intros st Hshown st'.
  assert (Hidle : interviewing st = false).
  { destruct (play_sound steps initial initial_sound) as (_ & _ & H).
    apply H; unfold resultsShown in Hshown.
    apply andb_true_iff in Hshown as [Hdone _]; exact Hdone. }
  assert (E : st' = uploadNewResume st).
  { unfold st', play; cbn [fold_left fire enabled handler].
    fold st; rewrite Hshown; reflexivity. }
  rewrite E; split; [|repeat split].
  intros ev Hev; destruct ev; try (eexists; reflexivity);
    cbn [enabled] in Hev; exfalso.
  - unfold startEnabled in Hev; cbn in Hev; discriminate Hev.
  - unfold formShown in Hev; cbn in Hev; rewrite Hidle in Hev; discriminate Hev.
  - unfold formShown in Hev; cbn in Hev; rewrite Hidle in Hev; discriminate Hev.
  - unfold resultsShown in Hev; cbn in Hev; discriminate Hev.
  - unfold resultsShown in Hev; cbn in Hev; discriminate Hev.
  - unfold resultsShown in Hev; cbn in Hev; discriminate Hev.
Qed.

Lemma upload_new_leaves_only_the_upload_witness :
  let st' := play (play initial short_interview) [(UploadNew, [])] in
  (forall ev, enabled ev st' = true -> exists file, ev = Upload file) /\
  skills st' = [] /\ history st' = [] /\ totalScore st' = 0%Z /\
  resumeText st' = [] /\ isResumeValid st' = None.
Proof.
  apply (upload_new_leaves_only_the_upload short_interview).
  reflexivity.
Defined.

End PageInvariants.

(** ** Stored texts are trimmed *)

Module Trimming.
Import InterviewAssistant Further.

Lemma trim_is_prefix (u : jsstring) :
  u = trimEnd u ++ rev (takeWhile is_space (rev u)).
Proof.
  unfold trimEnd; rewrite <- rev_app_distr, takeWhile_dropWhile.
  symmetry; apply rev_involutive.
Qed.

Lemma trim_trimmed (s : jsstring) : trimmed (trim s).
Proof.
  unfold trim, trimStart; split.
  - intros c r E.
    pose proof (trim_is_prefix (dropWhile is_space s)) as H.
    rewrite E in H; simpl in H.
    apply dropWhile_head in H; exact H.
  - intros r c E; unfold trimEnd in E.
    apply (f_equal (@rev ascii)) in E.
    rewrite rev_involutive, rev_app_distr in E; simpl in E.
    apply dropWhile_head in E; exact E.
Qed.

Lemma dropWhile_stop (p : ascii -> bool) (c : ascii) (r : jsstring) :
  p c = false -> dropWhile p (c :: r) = c :: r.
Proof. intros H; simpl; rewrite H; reflexivity. Qed.

(** Trimming a trimmed string changes nothing. *)
Lemma trimmed_fixed (s : jsstring) : trimmed s -> trim s = s.
Proof.
  intros [Hhead Hlast]; destruct s as [|c r]; [reflexivity|].
  unfold trim, trimStart, trimEnd.
  rewrite (dropWhile_stop is_space c r (Hhead c r eq_refl)).
  destruct (exists_last (l := c :: r)) as (r' & c' & E); [discriminate|].
  rewrite E, rev_app_distr.
  change (rev [c'] ++ rev r') with (c' :: rev r').
  rewrite (dropWhile_stop is_space c' (rev r') (Hlast r' c' E)).
  change (c' :: rev r') with (rev [c'] ++ rev r').
  rewrite <- rev_app_distr, rev_involutive; reflexivity.
Qed.

Lemma Forall_trimmed_map (f : jsstring -> jsstring) (l : list jsstring) :
  Forall (fun x => trimmed x /\ trim x = x) (map (fun q => trim (f q)) l).
Proof.
  apply Forall_map, Forall_forall; intros q _.
  split; [apply trim_trimmed | apply trimmed_fixed, trim_trimmed].
Qed.

Lemma Forall_firstn (P : jsstring -> Prop) (n : nat) (l : list jsstring) :
  Forall P l -> Forall P (firstn n l).
Proof.
  intros H; rewrite <- (firstn_skipn n l) in H.
  apply Forall_app in H; tauto.
Qed.

(** X4.  Whatever the oracle replies, the skills and the questions that
    are stored and the feedback that is recorded have no white space at
    either end, so trimming them again changes nothing. *)
Theorem stored_texts_are_trimmed
  (st : State) (resume : jsstring) (content : option Completion) :
  Forall (fun x => trimmed x /\ trim x = x)
    (skills (state_of (run (extractSkills resume st) [Replied content]))) /\
  Forall (fun x => trimmed x /\ trim x = x)
    (questions (state_of (run (generateQuestions st) [Replied content]))) /\
  (forall r2,
      trim (answer st) <> [] ->
      Forall (fun e => trimmed (Entry.feedback e) /\
                       trim (Entry.feedback e) = Entry.feedback e)
        (skipn (length (history st))
           (history
              (state_of (run (handleAnswerSubmit st) [Replied content; r2]))))).
Proof.
  split; [|split].
  - cbn [extractSkills run state_of skills setSkills].
    unfold extractedSkills_of; destruct content as [c|]; [|constructor].
    apply (Forall_trimmed_map (fun s => s)).
  - cbn [generateQuestions run state_of questions setQuestions].
    unfold generatedQuestions_of; destruct content as [c|]; [|constructor].
    apply Forall_firstn, Forall_trimmed_map.
  - intros r2 Hne.
    rewrite (ScorePattern.recorded_entry st content r2 Hne).
    rewrite skipn_app, skipn_all, Nat.sub_diag; simpl.
    constructor; [|constructor].
    cbn [Entry.feedback]; unfold feedback_of.
    split; [apply trim_trimmed | apply trimmed_fixed, trim_trimmed].
Qed.

Lemma stored_texts_are_trimmed_witness :
  let st := ScoringSamples.asked (js " A function with its scope.  ") in
  let content := Interview.plain "  Score: 7/10.   Mostly right.  " in
  Forall (fun e => trimmed (Entry.feedback e) /\
                   trim (Entry.feedback e) = Entry.feedback e)
    (skipn (length (history st))
       (history
          (state_of (run (handleAnswerSubmit st) [Replied content; Rejected])))).
Proof.
  intros st content.
  apply (proj2 (proj2 (stored_texts_are_trimmed st [] content)) Rejected).
  discriminate.
Defined.

End Trimming.

(** ** The number of skills *)

Module SkillCount.
Import InterviewAssistant Further.

Lemma split_length (sep : ascii) (t : jsstring) :
  length (split sep t) = 1 + count_occ ascii_dec t sep.
Proof.
  induction t as [|c t IH]; [reflexivity|].
  cbn [split count_occ].
  destruct (Ascii.eqb_spec c sep) as [->|Hne].
  - destruct (ascii_dec sep sep) as [_|H]; [|congruence].
    simpl; rewrite IH; reflexivity.
  - destruct (ascii_dec c sep) as [H|_]; [congruence|].
    destruct (split_cons sep t) as (seg & segs & E).
    rewrite E in *; simpl in *; exact IH.
Qed.

(** X5.  For a reply with a content, the number of skills stored is the
    number of commas of the reply plus one: the list is never empty, so the
    start button cannot stay disabled for want of skills. *)
Theorem one_skill_more_than_commas
  (st : State) (resume : jsstring) (c : Completion) :
  let st' := state_of (run (extractSkills resume st) [Replied (Some c)]) in
  length (skills st') = commas (text c) + 1 /\
  skills st' <> [] /\
  (length (skills st') =? 0) = false.
Proof.
  intros st'.
  assert (E : length (skills st') = commas (text c) + 1).
  { unfold st'; cbn [extractSkills run state_of skills setSkills].
    unfold extractedSkills_of, commas.
    rewrite length_map, split_length; lia. }
  split; [exact E|]; split.
  - intros H; rewrite H in E; simpl in E; lia.
  - apply Nat.eqb_neq; lia.
Qed.

End SkillCount.

(** ** What an upload asks and changes *)

Module UploadEffects.
Import InterviewAssistant Further.

(** X6.  An upload first asks for the verification of at most the first
    1000 characters of the document, and asks for the skills of the whole
    document exactly when the verification says yes.  The skills change
    only when the resume ends up valid, and are then those of the reply;
    the text of the resume is stored as soon as the verification says
    yes, even if the skill extraction then fails. *)
Theorem upload_requests_and_effects
  (st : State) (extractedText : jsstring) (r1 r2 : Reply) :
  let upload := handleFileUpload (Some (Some extractedText)) st in
  let final := state_of (run upload [r1; r2]) in
  requests upload [r1; r2]
  = VerifyResume (firstn 1000 extractedText)
    :: (if accepted r1 then [ExtractSkills extractedText] else []) /\
  length (firstn 1000 extractedText) <= 1000 /\
  (isResumeValid final = Some true ->
   exists content2,
     r2 = Replied content2 /\ skills final = extractedSkills_of content2) /\
  (isResumeValid final <> Some true -> skills final = skills st) /\
  resumeText final = (if accepted r1 then extractedText else resumeText st) /\
  isProcessing (state_of upload) = true /\
  isResumeValid (state_of upload) = None.
Proof.
  cbn zeta; unfold handleFileUpload, extractSkills, substring0.
  cbn [finally catch bind run requests state_of].
  split; [|split; [apply firstn_le_length|]].
  - destruct r1 as [|content1]; [reflexivity|].
    cbn [accepted]; destruct (isResume_of content1); [|reflexivity].
    cbn [finally catch bind requests]; destruct r2; reflexivity.
  - destruct r1 as [|content1];
      [repeat split; try reflexivity; cbn; intros; congruence|].
    cbn [accepted]; destruct (isResume_of content1);
      [|repeat split; try reflexivity; cbn; intros; congruence].
    cbn [finally catch bind run state_of].
    destruct r2 as [|content2].
    + repeat split; try reflexivity; cbn; intros; congruence.
    + repeat split; try reflexivity; cbn; intros; try congruence.
      exists content2; split; reflexivity.
Qed.

End UploadEffects.

(** ** Rejections that nothing catches *)

Module Uncaught.
Import InterviewAssistant.

(** X7.  When the call that scores an answer is rejected, the handler
    throws after that one request and the state is the one before the
    submission: the answer typed is still in the text area, nothing is
    recorded and the index has not moved. *)
Theorem rejected_scoring_loses_nothing (st : State) (rest : list Reply) :
  trim (answer st) <> [] ->
  run (handleAnswerSubmit st) (Rejected :: rest) = Throw st /\
  requests (handleAnswerSubmit st) (Rejected :: rest)
  = [ScoreAnswer (currentQuestion st) (answer st)].
Proof.
  intros Hne; unfold handleAnswerSubmit.
  destruct (trim (answer st)) as [|c r]; [congruence|].
  cbn [run requests]; destruct rest; split; reflexivity.
Qed.

Lemma rejected_scoring_loses_nothing_witness :
  let st := ScoringSamples.asked (js "It depends.") in
  run (handleAnswerSubmit st) [Rejected] = Throw st /\
  requests (handleAnswerSubmit st) [Rejected]
  = [ScoreAnswer (currentQuestion st) (answer st)].
Proof.
  intros st; apply (rejected_scoring_loses_nothing st []); discriminate.
Defined.

(** X8.  Starting an interview without skills does nothing and asks
    nothing.  With skills, the start shows the form at once; when the
    generation of the questions is rejected the handler throws and leaves
    the form shown, with an empty history, index 0 and the questions and
    the current question of before; when the reply has no question, the
    stored list is empty and the current question is the one of before. *)
Theorem start_without_questions (st : State) :
  (skills st = [] ->
   startInterview st = Return st tt) /\
  (skills st <> [] ->
   let waiting := state_of (startInterview st) in
   formShown waiting = true /\
   history waiting = [] /\ totalScore waiting = 0%Z /\
   currentQuestionIndex waiting = 0 /\
   questions waiting = questions st /\
   currentQuestion waiting = currentQuestion st /\
   run (startInterview st) [Rejected] = Throw waiting /\
   forall content,
     generatedQuestions_of content = [] ->
     let final := state_of (run (startInterview st) [Replied content]) in
     finished (run (startInterview st) [Replied content]) = true /\
     formShown final = true /\
     questions final = [] /\
     currentQuestion final = currentQuestion st).
Proof.
  unfold startInterview, generateQuestions; split.
  - intros ->; reflexivity.
  - intros Hne; destruct (skills st) as [|s rest] eqn:E; [congruence|].
    cbn [length Nat.eqb bind run state_of].
    repeat (split; [reflexivity|]).
    intros content Hnone; rewrite Hnone; repeat split.
Qed.

Lemma start_without_questions_witness :
  let st := initial |> setSkills [js "SQL"]
                    |> setCurrentQuestion (js "An old question?") in
  let final := state_of (run (startInterview st) [Replied None]) in
  formShown final = true /\
  questions final = [] /\
  currentQuestion final = js "An old question?".
Proof.
  intros st final.
  assert (Hne : skills st <> []) by discriminate.
  destruct (proj2 (start_without_questions st) Hne)
    as (_ & _ & _ & _ & _ & _ & _ & Hempty).
  destruct (Hempty None eq_refl) as (_ & Hform & Hqs & Hcur).
  repeat split; assumption.
Defined.

End Uncaught.

(** ** What the result analysis is shown *)

Module AnalysisPrompt.
Import InterviewAssistant.

(** X9.  The submission that ends the interview asks for an analysis of
    the first three records only: with three or more records already in
    the history, the answer just given is not among them. *)
Theorem analysis_sees_three_records
  (st : State) (content : option Completion) (r2 : Reply) :
  trim (answer st) <> [] ->
  ~ currentQuestionIndex st + 1 < length (questions st) ->
  exists shown,
    requests (handleAnswerSubmit st) [Replied content; r2]
    = [ScoreAnswer (currentQuestion st) (answer st); AnalyzeResults shown] /\
    shown
    = firstn 3
        (history
           (state_of (run (handleAnswerSubmit st) [Replied content; r2]))) /\
    length shown <= 3 /\
    (3 <= length (history st) -> shown = firstn 3 (history st)).
Proof.
  intros Hne Hlast.
  pose proof (ScorePattern.recorded_entry st content r2 Hne) as Hhist.
  cbv zeta in Hhist; rewrite Hhist; clear Hhist.
  unfold handleAnswerSubmit.
  destruct (trim (answer st)) as [|c0 rest]; [congruence|].
  cbn [run requests].
  destruct (currentQuestionIndex st + 1 <? length (questions st)) eqn:E;
    [apply Nat.ltb_lt in E; contradiction|].
  unfold analyzeResults; cbn [catch bind requests].
  eexists; split; [|split; [reflexivity|split]].
  - destruct r2 as [|content2]; [reflexivity|].
    destruct (parse_rawAnalysis content2) as [parsed|]; [|reflexivity].
    destruct (validatedAnalysis parsed); reflexivity.
  - apply firstn_le_length.
  - intros H; rewrite firstn_app.
    replace (3 - length (history st)) with 0 by lia.
    rewrite firstn_0, app_nil_r; reflexivity.
Qed.

Lemma analysis_sees_three_records_witness :
  requests (handleAnswerSubmit Further.last_of_four)
    [Replied (Interview.plain "Score: 9/10. Feedback: Excellent."); Rejected]
  = [ScoreAnswer (js "D?") (js "The last answer.");
     AnalyzeResults (history Further.last_of_four)].
Proof.
  destruct (analysis_sees_three_records Further.last_of_four
              (Interview.plain "Score: 9/10. Feedback: Excellent.") Rejected)
    as (shown & Hreq & _ & _ & Hthree).
  - discriminate.
  - simpl; lia.
  - rewrite Hreq, Hthree; [reflexivity | simpl; lia].
Defined.

End AnalysisPrompt.

(** ** The records of an interview *)

Module Records.
Import InterviewAssistant Interview Further Session.








End Records.

(** ** The colour of the result *)

Module Colours.
Import InterviewAssistant ResultsPage.

(** X11.  Whatever the oracle replies to the result analysis, the colour
    of the performance badge is one of the four colours of the four
    performances, never the grey of the default case. *)
Theorem badge_is_never_grey
  (history : list Entry.ChatHistoryEntry) (st : State) (r : Reply) :
  exists a,
    resultAnalysis (state_of (run (analyzeResults history st) [r])) = Some a /\
    In (getPerformanceColor (overallPerformance a))
       [js "#4CAF50"; js "#8BC34A"; js "#FFC107"; js "#F44336"] /\
    getPerformanceColor (overallPerformance a) <> js "#9E9E9E".
Proof.
  exists (analysis_of r).
  split; [apply (Analysis.analyzeResults_stores history st r)|].
  destruct (Analysis.analysis_of_shape r) as (Hin & _).
  destruct Hin as [<- | [<- | [<- | [<- | []]]]]; split;
    try discriminate; simpl; tauto.
Qed.

End Colours.

(** ** The display of the stopwatch *)

Module Clock.
Import CodeEditor CodeAnalysis.

Lemma uint_chars_digits (d : Decimal.uint) :
  forallb is_digit (uint_chars d) = true.
Proof. induction d; simpl; auto. Qed.

Lemma read_uint (d : Decimal.uint) : forall acc : nat,
  fold_left (fun a c => 10 * a + digit_value c)%Z (uint_chars d) (Z.of_nat acc)
  = Z.of_nat (Nat.of_uint_acc d acc).
Proof.
  induction d; intros acc; cbn [uint_chars fold_left Nat.of_uint_acc];
    [reflexivity|..];
    rewrite <- IHd; f_equal;
    rewrite Nat.tail_mul_spec; unfold digit_value;
    match goal with
    | |- context [Z.of_N (JsString.code ?c)] =>
        let v := eval vm_compute in (Z.of_N (JsString.code c)) in
        change (Z.of_N (JsString.code c)) with v
    end; lia.
Qed.

(** Reading the digits of a number gives the number back. *)
Lemma parseInt_toString (n : nat) : parseInt (toString n) = Z.of_nat n.
Proof.
  unfold parseInt, toString.
  pose proof (read_uint (Nat.to_uint n) 0) as H.
  change (Z.of_nat 0) with 0%Z in H; rewrite H.
  change (Nat.of_uint_acc (Nat.to_uint n) 0)
    with (Nat.of_uint (Nat.to_uint n)).
  rewrite DecimalNat.Unsigned.of_to; reflexivity.
Qed.

Lemma parseInt_zeros (k : nat) (s : jsstring) :
  parseInt (repeat "0"%char k ++ s) = parseInt s.
Proof.
  unfold parseInt; rewrite fold_left_app; f_equal.
  induction k as [|k IH]; [reflexivity | exact IH].
Qed.

Lemma padStart_length (width : nat) (c : ascii) (s : jsstring) :
  length (padStart width c s) = Nat.max width (length s).
Proof. unfold padStart; rewrite length_app, repeat_length; lia. Qed.

Lemma padStart_digits (s : jsstring) :
  forallb is_digit s = true ->
  forallb is_digit (padStart 2 "0"%char s) = true.
Proof.
  intros H; unfold padStart; rewrite forallb_app, H, andb_true_r.
  destruct (2 - length s) as [|[|[|k]]]; try reflexivity.
  apply forallb_forall; intros x Hx; apply repeat_spec in Hx; subst.
  reflexivity.
Qed.

Lemma toString_short (k : nat) : k < 100 -> length (toString k) <= 2.
Proof.
  intros H.
  do 100 (destruct k as [|k]; [vm_compute; repeat constructor|]).
  lia.
Qed.

(** The digits before a colon are determined by the whole text. *)
Lemma colon_splits_once (m1 m2 s1 s2 : jsstring) :
  forallb is_digit m1 = true -> forallb is_digit m2 = true ->
  m1 ++ ":"%char :: s1 = m2 ++ ":"%char :: s2 ->
  m1 = m2 /\ s1 = s2.
Proof.
  intros H1 H2 E.
  destruct (span_run is_digit m1 ":"%char s1 H1 eq_refl) as [T1 D1].
  destruct (span_run is_digit m2 ":"%char s2 H2 eq_refl) as [T2 D2].
  rewrite E in T1, D1; split; congruence.
Qed.

(** X12.  The stopwatch shows minutes and seconds as digits around a
    colon, the seconds always on two digits and below 60, the minutes on
    at least two; reading the two numbers back gives the elapsed seconds,
    so two different times never look the same.  Below 100 minutes the
    display has exactly five characters. *)
Theorem formatTime_reads_back (totalSeconds : nat) :
  (exists mm ss,
      formatTime totalSeconds = mm ++ ":"%char :: ss /\
      forallb is_digit mm = true /\ forallb is_digit ss = true /\
      2 <= length mm /\ length ss = 2 /\
      (parseInt ss < 60)%Z /\
      (60 * parseInt mm + parseInt ss = Z.of_nat totalSeconds)%Z) /\
  (forall other, formatTime other = formatTime totalSeconds ->
                 other = totalSeconds) /\
  (totalSeconds < 100 * 60 -> length (formatTime totalSeconds) = 5).
Proof.
  assert (Hparts : forall n,
             forallb is_digit (padStart 2 "0"%char (toString (n / 60))) = true /\
             forallb is_digit (padStart 2 "0"%char (toString (n mod 60))) = true /\
             parseInt (padStart 2 "0"%char (toString (n / 60)))
             = Z.of_nat (n / 60) /\
             parseInt (padStart 2 "0"%char (toString (n mod 60)))
             = Z.of_nat (n mod 60)).
  { intros n; unfold toString; repeat split;
      try (apply padStart_digits, uint_chars_digits);
      unfold padStart; rewrite parseInt_zeros; apply parseInt_toString. }
  assert (Hsec : forall n, n mod 60 < 60)
    by (intros n; apply Nat.mod_upper_bound; discriminate).
  split; [|split].
  - destruct (Hparts totalSeconds) as (Hm & Hs & Pm & Ps).
    eexists; eexists; split; [reflexivity|].
    repeat split; try assumption.
    + rewrite padStart_length; lia.
    + rewrite padStart_length.
      pose proof (toString_short (totalSeconds mod 60)) as H.
      pose proof (Hsec totalSeconds); lia.
    + rewrite Ps; pose proof (Hsec totalSeconds); lia.
    + rewrite Pm, Ps.
      pose proof (Nat.div_mod_eq totalSeconds 60); lia.
  - intros other E; unfold formatTime in E; cbv zeta in E.
    destruct (Hparts totalSeconds) as (Hm & Hs & Pm & Ps).
    destruct (Hparts other) as (Hm' & Hs' & Pm' & Ps').
    apply colon_splits_once in E as [Em Es]; try assumption.
    rewrite Em in Pm'; rewrite Es in Ps'.
    pose proof (Nat.div_mod_eq totalSeconds 60).
    pose proof (Nat.div_mod_eq other 60); lia.
  - intros H; unfold formatTime; cbv zeta.
    rewrite length_app; cbn [length]; rewrite !padStart_length.
    pose proof (toString_short (totalSeconds mod 60)).
    pose proof (toString_short (totalSeconds / 60)).
    pose proof (Hsec totalSeconds).
    assert (totalSeconds / 60 < 100)
      by (apply Nat.Div0.div_lt_upper_bound; lia).
    lia.
Qed.

Lemma formatTime_reads_back_witness :
  length (formatTime 3599) = 5 /\
  forall other, formatTime other = formatTime 3599 -> other = 3599.
Proof.
  destruct (formatTime_reads_back 3599) as (_ & Hinj & Hlen).
  split; [apply Hlen; lia | exact Hinj].
Defined.

End Clock.

(** ** The stopwatch *)

Module Stopwatch.
Import CodeEditor CodeAnalysis Further.

Lemma ticks_stopped (k : nat) (st : State) :
  isRunning st = false -> ticks k st = st.
Proof.
  intros H; induction k as [|k IH]; [reflexivity|].
  change (ticks (S k) st) with (tick (ticks k st)); rewrite IH.
  unfold tick; rewrite H; reflexivity.
Qed.

Lemma ticks_running (k : nat) (st : State) :
  isRunning st = true ->
  time (ticks k st) = time st + k /\ isRunning (ticks k st) = true.
Proof.
  intros H; induction k as [|k [IHt IHr]]; [split; [simpl; lia | exact H]|].
  change (ticks (S k) st) with (tick (ticks k st)).
  unfold tick; rewrite IHr; cbn [time isRunning setTime]; rewrite IHt.
  split; [lia | exact IHr].
Qed.

(** X13.  The stopwatch counts the seconds since the last question was
    loaded and is stopped by everything else: after a generation that
    succeeds, [k] ticks show [k]; after a generation that fails they show
    0; and after a run of the tests or an analysis of code that is not
    blank, whatever the reply, they leave the time where it was. *)
Theorem stopwatch_counts_from_the_question
  (ex : Exceptions) (st : State) (r : Reply) (k : nat) :
  (forall c result q t,
      r = Replied (Some c) -> text c <> [] -> json c = Some result ->
      get result (js "question") = Some q ->
      get result (js "testCases") = Some t ->
      time (ticks k (state_of (run (generateQuestion st) [r]))) = k) /\
  (generation_fails r ->
   time (ticks k (state_of (run (generateQuestion st) [r]))) = 0) /\
  (trim (code st) <> [] ->
   time (ticks k (state_of (run (runTestCases st) [r]))) = time st /\
   time (ticks k (analyzed ex st r)) = time st).
Proof.
  split; [|split].
  - intros c result q t -> Hc Hj Hq Ht.
    unfold generateQuestion; cbn [finally catch run].
    rewrite (Scoring.present_some c Hc), Hj, Hq, Ht.
    cbn [finally catch state_of].
    match goal with
    | |- time (ticks k ?s) = k =>
        destruct (ticks_running k s eq_refl) as [E _]; rewrite E
    end.
    reflexivity.
  - intros Hfail; rewrite ticks_stopped.
    + unfold generateQuestion; cbn [finally catch run].
      destruct Hfail as [-> | [-> | (c & -> & [Hc | [Hj | Hj]])]];
        try reflexivity.
      * rewrite (Scoring.present_empty c Hc); reflexivity.
      * destruct (present (Some c)); [rewrite ?Hj|]; try reflexivity.
        destruct (json c0) as [v|]; [|reflexivity].
        destruct (get v (js "question")), (get v (js "testCases"));
          reflexivity.
      * destruct (present (Some c)) as [c0|]; [|reflexivity].
        destruct (json c0) as [v|]; [|reflexivity].
        destruct (get v (js "question")), (get v (js "testCases"));
          reflexivity.
    + unfold generateQuestion; cbn [finally catch run].
      destruct Hfail as [-> | [-> | (c & -> & [Hc | [Hj | Hj]])]];
        try reflexivity.
      * rewrite (Scoring.present_empty c Hc); reflexivity.
      * unfold present; destruct (str_eqb (text c) []); [reflexivity|].
        rewrite Hj; reflexivity.
      * unfold present; destruct (str_eqb (text c) []); [reflexivity|].
        rewrite Hj; reflexivity.
  - intros Hcode; split.
    + rewrite ticks_stopped; unfold runTestCases;
        destruct (trim (code st)) as [|c0 rest]; try congruence;
        cbn [finally catch run];
        destruct r as [|content]; try reflexivity;
        destruct (present content) as [c|]; try reflexivity;
        destruct (json c) as [v|]; try reflexivity;
        destruct (get v (js "testResults")); reflexivity.
    + rewrite ticks_stopped; unfold analyzed, analyzeCode;
        destruct (trim (code st)) as [|c0 rest]; try congruence;
        destruct (analysis_of ex r); reflexivity.
Qed.

Lemma stopwatch_counts_from_the_question_witness :
  time (ticks 42
          (state_of (run (generateQuestion TestRunFailure.after_a_run)
                         [Replied (Some TestCaseReplies.three_test_cases)])))
  = 42 /\
  time (ticks 42
          (state_of (run (runTestCases
                            (ticks 17
                               (state_of
                                  (run (generateQuestion initial)
                                     [Replied (Some TestCaseReplies.three_test_cases)]))
                             |> setCode (js "return xs.reverse();")))
                         [Rejected])))
  = 17.
Proof.
  split.
  - refine (proj1 (stopwatch_counts_from_the_question
                     {| rejection := NotAnError; nullRead := [] |}
                     TestRunFailure.after_a_run
                     (Replied (Some TestCaseReplies.three_test_cases)) 42)
              TestCaseReplies.three_test_cases _ _ _ eq_refl _ eq_refl
              eq_refl eq_refl).
    discriminate.
  - refine (proj1 (proj2 (proj2 (stopwatch_counts_from_the_question
                     {| rejection := NotAnError; nullRead := [] |}
                     _ Rejected 42)) _)).
    discriminate.
Defined.

End Stopwatch.

(** ** A generation that fails *)

Module GenerationFailure.
Import CodeEditor Further.

(** X14.  When the generation of a coding question fails (the call is
    rejected, the reply is missing, empty, not JSON or [null]), the
    handler still ends normally: the question becomes the sentence that
    asks to try again, the stopwatch stands at 0, and the code, the
    analysis, the test cases and the test results of before are all
    kept. *)
Theorem failed_generation_keeps_the_work (st : State) (r : Reply) :
  generation_fails r ->
  let p := run (generateQuestion st) [r] in
  finished p = true /\
  question (state_of p)
  = VString (js "We couldn't load a question. Please check your connection and try again.") /\
  code (state_of p) = code st /\
  analysis (state_of p) = analysis st /\
  testCases (state_of p) = testCases st /\
  testResults (state_of p) = testResults st /\
  time (state_of p) = 0 /\
  isRunning (state_of p) = false /\
  questionLoading (state_of p) = false.
Proof.
  intros Hfail; cbv zeta.
  unfold generateQuestion; cbn [finally catch run].
  destruct Hfail as [-> | [-> | (c & -> & [Hc | [Hj | Hj]])]].
  - repeat split.
  - repeat split.
  - rewrite (Scoring.present_empty c Hc); repeat split.
  - unfold present; destruct (str_eqb (text c) []); [repeat split|].
    rewrite Hj; repeat split.
  - unfold present; destruct (str_eqb (text c) []); [repeat split|].
    rewrite Hj; repeat split.
Qed.

Lemma failed_generation_keeps_the_work_witness :
  let p := run (generateQuestion TestRunFailure.after_a_run)
               [Replied (Some {| text := js "null"; json := Some VNull |})] in
  finished p = true /\
  code (state_of p) = js "return xs.reverse();" /\
  testCases (state_of p) = testCases TestRunFailure.after_a_run /\
  testResults (state_of p) = testResults TestRunFailure.after_a_run.
Proof.
  intros p.
  destruct (failed_generation_keeps_the_work TestRunFailure.after_a_run
              (Replied (Some {| text := js "null"; json := Some VNull |})))
    as (Hfin & _ & Hcode & _ & Hcases & Hresults & _).
  - right; right; eexists; split; [reflexivity|].
    right; right; reflexivity.
  - split; [exact Hfin|]; split; [exact Hcode|]; split; assumption.
Defined.

End GenerationFailure.

(** ** A run of the tests *)

Module TestRunEffects.
Import CodeEditor.

(** X15.  A run of the tests never throws and never touches the code, the
    question, the stored test cases, the analysis, the time or the
    settings.  With blank code it changes nothing and asks nothing; with
    code it asks once, for the current question, language, code and test
    cases, and ends with the results tab open and the stopwatch stopped. *)
Theorem run_changes_only_the_results (st : State) (r : Reply) :
  let p := run (runTestCases st) [r] in
  finished p = true /\
  code (state_of p) = code st /\
  question (state_of p) = question st /\
  testCases (state_of p) = testCases st /\
  analysis (state_of p) = analysis st /\
  time (state_of p) = time st /\
  language (state_of p) = language st /\
  difficulty (state_of p) = difficulty st /\
  topic (state_of p) = topic st /\
  (trim (code st) = [] ->
   state_of p = st /\ requests (runTestCases st) [r] = []) /\
  (trim (code st) <> [] ->
   requests (runTestCases st) [r]
   = [RunTests (question st) (language st) (code st) (testCases st)] /\
   activeTab (state_of p) = results /\
   isRunning (state_of p) = false /\
   runningTests (state_of p) = false).
Proof.
  cbv zeta; unfold runTestCases.
  destruct (trim (code st)) as [|c0 rest].
  - repeat split; intros; congruence.
  - cbn [finally catch run requests].
    destruct r as [|content];
      [repeat split; intros; congruence|].
    destruct (present content) as [c|];
      [|repeat split; intros; congruence].
    destruct (json c) as [v|]; [|repeat split; intros; congruence].
    destruct (get v (js "testResults"));
      repeat split; intros; congruence.
Qed.



End TestRunEffects.

(** ** The analysis of the code *)

Module CodeAnalysisFacts.
Import CodeEditor CodeAnalysis.

Lemma or_else_truthy (v : value) (s : jsstring) :
  s <> [] -> truthy (or_else v (VString s)) = true.
Proof.
  intros Hs; unfold or_else.
  destruct (truthy v) eqn:E; [exact E|].
  destruct s; [congruence | reflexivity].
Qed.

(** X17.  Whatever the oracle replies and whatever is thrown, an analysis
    leaves a time and a space complexity that are shown as something: they
    are never missing, [null], false, 0 or the empty string.  It never
    touches the code, the question, the test cases, the test results or
    the time.  With blank code it asks nothing and leaves the stopwatch
    and the loading flag alone; with code it shows the loading state while
    it waits, stops the stopwatch, and ends with the loading flag off. *)
Theorem analysis_always_shows_complexities
  (ex : Exceptions) (st : State) (r : Reply) :
  let final := analyzed ex st r in
  truthy (timeComplexity (analysis final)) = true /\
  truthy (spaceComplexity (analysis final)) = true /\
  code final = code st /\ question final = question st /\
  testCases final = testCases st /\ testResults final = testResults st /\
  time final = time st /\
  (trim (code st) = [] ->
   analyzeCode ex st = Immediately final /\
   isRunning final = isRunning st /\ loading final = loading st) /\
  (trim (code st) <> [] ->
   exists waiting req k,
     analyzeCode ex st = Awaiting waiting req k /\
     loading waiting = true /\ isRunning waiting = false /\
     loading final = false /\ isRunning final = false /\
     showCorrectedCode final = false).
Proof.
  cbv zeta; unfold analyzed, analyzeCode.
  destruct (trim (code st)) as [|c0 rest].
  - repeat split; intros; congruence.
  - assert (Hshape :
              match analysis_of ex r with
              | inl a => truthy (timeComplexity a) = true /\
                         truthy (spaceComplexity a) = true
              | inr _ => True
              end).
    { unfold analysis_of.
      destruct r as [|content]; [exact I|].
      destruct (present content) as [c|]; [|exact I].
      destruct (json c) as [v|]; [|exact I].
      destruct (get v (js "timeComplexity")); [|exact I].
      destruct (get v (js "spaceComplexity")); [|exact I].
      destruct (get v (js "suggestion")); [|exact I].
      destruct (get v (js "correctedCode")); [|exact I].
      split; apply or_else_truthy; discriminate. }
    destruct (analysis_of ex r) as [a | error].
    + destruct Hshape as [Ht Hs].
      repeat split; try assumption; try (intros; congruence).
      intros _; eexists; eexists; eexists; repeat split.
    + repeat split; try (intros; congruence).
      intros _; eexists; eexists; eexists; repeat split.
Qed.

(** X18.  The two failures the program names itself are told to the user:
    with code in the editor, a reply without content and a reply that is
    not JSON both end with both complexities reading [Analysis failed],
    no corrected code, and as suggestion the sentence of the error thrown
    for that case. *)
Theorem analysis_failures_are_explained
  (ex : Exceptions) (st : State) (r : Reply) :
  trim (code st) <> [] ->
  let final := analyzed ex st r in
  ((r = Replied None \/ exists c, r = Replied (Some c) /\ text c = []) ->
   analysis final
   = analysisFailed
       (AnError (js "The analysis didn't return any results. Please try again.")) /\
   suggestion (analysis final)
   = VString (js "Suggestion: The analysis didn't return any results. Please try again.")) /\
  ((exists c, r = Replied (Some c) /\ text c <> [] /\ json c = None) ->
   analysis final
   = analysisFailed
       (AnError (js "We couldn't understand the analysis response. Please try again.")) /\
   suggestion (analysis final)
   = VString (js "Suggestion: We couldn't understand the analysis response. Please try again.")) /\
  (r = Rejected -> analysis final = analysisFailed (rejection ex)).
Proof.
  intros Hcode; cbv zeta; unfold analyzed, analyzeCode.
  destruct (trim (code st)) as [|c0 rest]; [congruence|].
  split; [|split].
  - intros [-> | (c & -> & Hc)].
    + split; reflexivity.
    + unfold analysis_of; rewrite (Scoring.present_empty c Hc).
      split; reflexivity.
  - intros (c & -> & Hc & Hj).
    unfold analysis_of; rewrite (Scoring.present_some c Hc), Hj.
    split; reflexivity.
  - intros ->; reflexivity.
Qed.

Lemma analysis_failures_are_explained_witness :
  let ex := {| rejection := NotAnError; nullRead := [] |} in
  suggestion
    (analysis
       (analyzed ex TestRunFailure.after_a_run
          (Replied (Interview.plain "O(n) time."))))
  = VString (js "Suggestion: We couldn't understand the analysis response. Please try again.").
Proof.
  intros ex.
  assert (Hcode : trim (code TestRunFailure.after_a_run) <> [])
    by discriminate.
  destruct (analysis_failures_are_explained ex TestRunFailure.after_a_run
              (Replied (Interview.plain "O(n) time.")) Hcode)
    as (_ & Hparse & _).
  apply Hparse; eexists; split; [reflexivity|].
  split; [discriminate | reflexivity].
Defined.

End CodeAnalysisFacts.

(** ** The variant without test cases *)

Module QuestionOnly.
Import CodeEditorV1.

Lemma present_text (content : option Completion) (c : Completion) :
  present content = Some c -> content = Some c /\ text c <> [].
Proof.
  unfold present; destruct content as [c'|]; [|discriminate].
  destruct (text c') eqn:E; simpl; [discriminate|].
  intros H; injection H as <-; split; [reflexivity | congruence].
Qed.

Lemma question_of_nonempty (noContent rejected : string) (r : Reply) :
  js noContent <> [] -> js rejected <> [] ->
  question_of noContent rejected r <> [].
Proof.
  intros H1 H2; unfold question_of.
  destruct r as [|content]; [exact H2|].
  destruct (present content) as [c|] eqn:E; [|exact H1].
  apply present_text in E; tauto.
Qed.

(** X19.  In the variant without test cases the question shown after a
    generation is never empty: it is the reply when the reply has a
    content, and a sentence that says what to do otherwise.  A generation
    caused by a change of the settings keeps the code and its analysis;
    the button for a new question empties the code and resets the analysis
    before it asks, so they are gone even when the generation fails. *)
Theorem question_is_never_empty (st : State) (r : Reply) :
  let changed := after (generateQuestion st) r in
  let pressed := after (generateNewQuestion st) r in
  question changed <> [] /\ question pressed <> [] /\
  (forall c, r = Replied (Some c) -> text c <> [] ->
             question changed = text c /\ question pressed = text c) /\
  code changed = code st /\ analysis changed = analysis st /\
  code pressed = [] /\ analysis pressed = CodeEditor.notAnalyzed /\
  questionLoading changed = false /\ questionLoading pressed = false.
Proof.
  cbv zeta; unfold generateQuestion, generateNewQuestion, after.
  cbn [question code analysis questionLoading setQuestion setQuestionLoading
       setCode setAnalysis setShowCorrectedCode].
  split; [apply question_of_nonempty; discriminate|].
  split; [apply question_of_nonempty; discriminate|].
  split; [|repeat split].
  intros c -> Hc; unfold question_of.
  rewrite (Scoring.present_some c Hc); split; reflexivity.
Qed.

End QuestionOnly.

(** ** When the start button is offered *)

Module StartOffered.
Import InterviewAssistant Further.

(** X20.  After an upload made while no interview is under way or
    completed, the start button can be pressed exactly when the
    verification said yes and the skill extraction replied with a content,
    whatever that content is: even an empty reply gives one skill. *)
Theorem start_is_offered_after_an_accepted_resume
  (st : State) (extractedText : jsstring) (r1 r2 : Reply) :
  interviewing st = false ->
  interviewCompleted st = false ->
  let final :=
    state_of (run (handleFileUpload (Some (Some extractedText)) st) [r1; r2]) in
  startEnabled final = true <->
  accepted r1 = true /\ exists c, r2 = Replied (Some c).
Proof.
  intros Hidle Hopen; cbv zeta.
  unfold handleFileUpload, extractSkills.
  cbn [finally catch bind run state_of].
  destruct r1 as [|content1].
  - unfold startEnabled; cbn; rewrite ?Hopen; cbn; split;
      [discriminate | intros [H _]; discriminate H].
  - cbn [accepted]; destruct (isResume_of content1).
    + cbn [finally catch bind run state_of].
      destruct r2 as [|[c|]].
      * unfold startEnabled; cbn; rewrite ?Hopen; cbn; split;
          [discriminate | intros [_ [c H]]; discriminate H].
      * unfold startEnabled;
          cbn [finally catch bind run state_of
               interviewCompleted isResumeValid interviewing
               skills setIsProcessing setIsResumeValid setSkills setResumeText].
        rewrite Hopen, Hidle; unfold extractedSkills_of.
        rewrite length_map.
        destruct (split_cons comma (text c)) as (seg & segs & E); rewrite E.
        split; [intros _; split; [reflexivity | eauto] | reflexivity].
      * unfold startEnabled; cbn; rewrite ?Hopen, ?Hidle; cbn; split;
          [discriminate | intros [_ [c H]]; discriminate H].
    + unfold startEnabled; cbn; rewrite ?Hopen; cbn; split;
        [discriminate | intros [H _]; discriminate H].
Qed.

Lemma start_is_offered_after_an_accepted_resume_witness :
  startEnabled
    (state_of
       (run (handleFileUpload (Some (Some (js "Jane Doe"))) initial)
          [Replied (Interview.plain "Yes."); Replied (Interview.plain "")]))
  = true.
Proof.
  apply (start_is_offered_after_an_accepted_resume initial (js "Jane Doe")
           (Replied (Interview.plain "Yes.")) (Replied (Interview.plain ""))
           eq_refl eq_refl).
  split; [reflexivity | eexists; reflexivity].
Defined.

End StartOffered.
